(** * Manifest rendering for versioned application specs

    A shallow embedding of [pkg/render/renderer.go]: input validation,
    expansion of templated values, coalescing of values documents,
    acquisition of manifests from the installation spec, and filtering
    of the rendered resources by label.

    Go values are modelled as follows.
    - A function returning [(T, error)] returns a [result T]; a run-time
      panic (nil dereference, [template.Must]) is the third outcome
      [Panic], distinct from a returned error.
    - A Go [map[string]T] is a [gmap string T]; a [range] over a map
      visits its entries in an order chosen by the run time, which is a
      parameter ([range_map]) of every function that ranges over a map.
    - [ValuesInputs] is passed by value, but its [Params] field is a
      reference to a map shared with the caller: the maps live in a
      [heap] and the field holds an address (or nil).
    - Calls that leave the process (chart rendering, archive download)
      are recorded in a trace of [event]s. *)

From Stdlib Require Import Strings.Ascii Strings.String.
From stdpp Require Import gmap strings list fin_maps.

(** ** Errors and outcomes *)

Inductive error : Type :=
  | MissingInstallSpecError
  | FailedToRenderManifestsError (err : error)
  | FailedToConvertManifestsError (err : error)
  | FailedRenderValueTemplatesError (err : error)
  | MissingInputForRequiredLayer (err : error)
  | MissingInputForRequireParam (name : string)
  | UnrecognizedParamError (name : string)
  | IncorrectNumberOfInputLayersError
  | Errorf (msg : string)
  | ExternalError (msg : string).

Inductive result (A : Type) : Type :=
  | Ok (a : A)
  | Err (e : error)
  | Panic.
Arguments Ok {A} a.
Arguments Err {A} e.
Arguments Panic {A}.

#[global] Instance result_ret : MRet result := fun A a => Ok a.
#[global] Instance result_bind : MBind result := fun A B f r =>
  match r with
  | Ok a => f a
  | Err e => Err e
  | Panic => Panic
  end.

(** [template.Must]: a returned error becomes a panic. *)
Definition Must {A} (r : result A) : result A :=
  match r with
  | Err _ => Panic
  | _ => r
  end.

(** ** Nested values documents *)

#[warnings="-register-all"]
Inductive value : Type :=
  | VScalar (s : string)
  | VSeq (l : list value)
  | VMap (m : gmap string value).


(** Modelled from the spec: [CoalesceValuesMap] is not among the
    sources.  "For each key in overlay, if both base and overlay values
    are mappings, merge recursively; otherwise overlay value replaces
    base value — scalars and sequences are never element-wise merged,
    only whole-value replaced." *)
Fixpoint coalesceValue (base overlay : value) {struct overlay} : value :=
  match base, overlay with
  | VMap dst, VMap src =>
      VMap (map_fold (fun key val acc =>
                        <[key := match acc !! key with
                                 | Some old => coalesceValue old val
                                 | None => val
                                 end]> acc) dst src)
  | _, _ => overlay
  end.

Definition CoalesceValuesMap (dst src : gmap string value) : gmap string value :=
  map_fold (fun key val acc =>
              <[key := match acc !! key with
                       | Some old => coalesceValue old val
                       | None => val
                       end]> acc) dst src.

(** The value found by walking a path of keys down a document. *)
Fixpoint get_path (m : gmap string value) (path : list string) : option value :=
  match path with
  | [] => Some (VMap m)
  | key :: rest =>
      match m !! key with
      | None => None
      | Some v =>
          match rest with
          | [] => Some v
          | _ :: _ =>
              match v with
              | VMap m' => get_path m' rest
              | _ => None
              end
          end
      end
  end.


(** The document obtained by coalescing a list of sources, earliest
    first, into an empty accumulator. *)
Definition coalesceAll (sources : list (gmap string value)) : gmap string value :=
  fold_left CoalesceValuesMap sources ∅.

(** Splitting a parameter name at its dots. *)
Fixpoint split_dots (s : string) : list string :=
  match s with
  | EmptyString => [EmptyString]
  | String c s' =>
      if Ascii.eqb c "."%char then EmptyString :: split_dots s'
      else match split_dots s' with
           | [] => [String c EmptyString]
           | seg :: segs => String c seg :: segs
           end
  end.

Fixpoint nest (path : list string) (v : value) : value :=
  match path with
  | [] => v
  | key :: rest => VMap {[ key := nest rest v ]}
  end.

(** Modelled from the spec: [ConvertParamsToNestedMap] is not among the
    sources.  "Dotted-path keys expand into nesting, e.g. a.b.c becomes
    {a:{b:{c:v}}}"; "malformed path syntax is reported as a parse
    error".  A path is taken to be malformed when one of its segments is
    empty.  The entries are those of the Go map in the order its [range]
    yields them. *)
Fixpoint paramsToNestedMap (entries : list (string * string))
    (acc : gmap string value) : result (gmap string value) :=
  match entries with
  | [] => Ok acc
  | (name, val) :: rest =>
      match split_dots name with
      | key :: path =>
          if bool_decide (Forall (fun seg => seg ≠ EmptyString) (key :: path))
          then paramsToNestedMap rest
                 (CoalesceValuesMap acc {[ key := nest path (VScalar val) ]})
          else Err (Errorf ("malformed parameter path " +:+ name))
      | [] => Err (Errorf ("malformed parameter path " +:+ name))
      end
  end.

Definition ConvertParamsToNestedMap (entries : list (string * string))
    : result (gmap string value) :=
  paramsToNestedMap entries ∅.

(** ** The hub API types ([api/v1]), as far as the renderer reads them *)

Module hubv1.

(** [hubv1.Parameter]; the name is a reserved word here. *)
Record Param : Type := {
  Param_Name : string;
  Param_Required : bool
}.

Record LayerOption : Type := {
  LayerOption_Id : string;
  HelmValues : string;
  LayerOption_Parameters : list Param;
  ResourceDependencies : list string
}.

Record Layer : Type := {
  Layer_Id : string;
  Optional : bool;
  Options : list LayerOption
}.

Record Flavor : Type := {
  CustomizationLayers : list Layer;
  Flavor_Parameters : list Param
}.

Record GithubRepositoryLocation : Type := {
  Org : string;
  Repo : string;
  Ref : string;
  Directory : string
}.

Record TgzLocation : Type := { Uri : string }.

(** The [Step] field of an installation step is an interface value:
    nil when unset, otherwise a wrapper around a pointer (which may
    itself be nil) to the source.  [Step_Unrecognized] stands for any
    dynamic type the switch does not list. *)
Inductive StepSource : Type :=
  | Step_Unset
  | Step_GithubChart (chart : option GithubRepositoryLocation)
  | Step_HelmArchive (archive : option TgzLocation)
  | Step_ManifestsArchive (archive : option TgzLocation)
  | Step_Unrecognized.

Record InstallationSteps_Step : Type := {
  Step_Name : string;
  Step : StepSource
}.

Record InstallationSteps : Type := {
  Steps : list InstallationSteps_Step
}.

Inductive InstallationSpec : Type :=
  | Spec_Unset
  | Spec_GithubChart (chart : option GithubRepositoryLocation)
  | Spec_HelmArchive (archive : option TgzLocation)
  | Spec_ManifestsArchive (archive : option TgzLocation)
  | Spec_InstallationSteps (steps : option InstallationSteps)
  | Spec_Unrecognized.

Record VersionedApplicationSpec : Type := {
  GetInstallationSpec : InstallationSpec;
  GetParameters : list Param;
  GetRequiredLabels : gmap string string
}.

End hubv1.

(** ** Collaborator types *)

Record ResourceRef : Type := {
  ResourceRef_Name : string;
  ResourceRef_Namespace : string
}.

Record GithubChartRef : Type := {
  Owner : string;
  ChartRepo : string;
  ChartRef : string;
  ChartDirectory : string
}.

(** An unstructured resource: its labels (nil when it has none) and the
    rest of the object, which the renderer never inspects. *)
Record UnstructuredResource : Type := {
  GetLabels : option (gmap string string);
  Object : string
}.

Definition SetLabels (labels : gmap string string) (resource : UnstructuredResource)
    : UnstructuredResource :=
  {| GetLabels := Some labels; Object := Object resource |}.

(** ** The values input bundle and the store of parameter maps *)

Record LayerInput : Type := {
  LayerId : string;
  OptionId : string
}.

Record ValuesInputs : Type := {
  Name : string;
  InstallNamespace : string;
  Flavor : option hubv1.Flavor;
  Layers : list LayerInput;
  MeshRef : ResourceRef;
  UserDefinedValues : string;
  SpecDefinedValues : string;
  Params : option positive
}.

Abbreviation heap := (gmap positive (gmap string string)).

(** The map a [Params] field refers to; a nil map reads as empty. *)
Definition deref (h : heap) (ref : option positive) : gmap string string :=
  match ref with
  | Some l => default ∅ (h !! l)
  | None => ∅
  end.

(** Reading a key of a Go map: the zero value when the key is absent. *)
Definition index_map (m : gmap string string) (key : string) : string :=
  default EmptyString (m !! key).

Definition with_SpecDefinedValues (text : string) (inputs : ValuesInputs) : ValuesInputs :=
  {| Name := Name inputs; InstallNamespace := InstallNamespace inputs;
     Flavor := Flavor inputs; Layers := Layers inputs; MeshRef := MeshRef inputs;
     UserDefinedValues := UserDefinedValues inputs;
     SpecDefinedValues := text;
     Params := Params inputs |}.

Definition with_UserDefinedValues (text : string) (inputs : ValuesInputs) : ValuesInputs :=
  {| Name := Name inputs; InstallNamespace := InstallNamespace inputs;
     Flavor := Flavor inputs; Layers := Layers inputs; MeshRef := MeshRef inputs;
     UserDefinedValues := text;
     SpecDefinedValues := SpecDefinedValues inputs;
     Params := Params inputs |}.

Definition with_Layers (layers : list LayerInput) (inputs : ValuesInputs) : ValuesInputs :=
  {| Name := Name inputs; InstallNamespace := InstallNamespace inputs;
     Flavor := Flavor inputs; Layers := layers; MeshRef := MeshRef inputs;
     UserDefinedValues := UserDefinedValues inputs;
     SpecDefinedValues := SpecDefinedValues inputs;
     Params := Params inputs |}.

(** ** Effects: the parameter maps and the calls to collaborators *)

Inductive event : Type :=
  | RenderManifestsCall (uri values releaseName namespace kubeVersion : string)
  | RenderManifestsFromGithubCall (ref : GithubChartRef)
      (values releaseName namespace kubeVersion : string)
  | GetManifestsFromRemoteTarCall (uri : string).

Record world : Type := {
  w_heap : heap;
  w_trace : list event
}.

Definition M (A : Type) : Type := world → result A * world.

#[global] Instance M_ret : MRet M := fun A a w => (Ok a, w).
#[global] Instance M_bind : MBind M := fun A B f m w =>
  match m w with
  | (Ok a, w') => f a w'
  | (Err e, w') => (Err e, w')
  | (Panic, w') => (Panic, w')
  end.

(** A pure outcome inside an effectful computation. *)
Definition lift {A} (r : result A) : M A := fun w => (r, w).

(** A computation that only reads the parameter maps. *)
Definition reading {A} (f : heap → result A) : M A := fun w => (f (w_heap w), w).

(** A call to a collaborator: the call is recorded, its outcome returned. *)
Definition call {A} (e : event) (r : result A) : M A :=
  fun w => (r, {| w_heap := w_heap w; w_trace := w_trace w ++ [e] |}).

(** [params[name] = text] on the map at [ref]; writing to a nil map panics. *)
Definition store_param (ref : option positive) (name text : string) : M unit :=
  fun w =>
    match ref with
    | Some l =>
        (Ok tt, {| w_heap := <[l := <[name := text]> (deref (w_heap w) ref)]> (w_heap w);
                   w_trace := w_trace w |})
    | None => (Panic, w)
    end.

Definition wrap_error {A} (wrap : error → error) (r : result A) : result A :=
  match r with
  | Err e => Err (wrap e)
  | _ => r
  end.

(** ** Helpers of the package that are not among the sources *)

(** Modelled from the spec: [GetRequiredLayerCount] is not among the
    sources.  "The number of required layers declared by the Flavor";
    a nil flavor declares none. *)
Definition GetRequiredLayerCount (flavor : option hubv1.Flavor) : nat :=
  match flavor with
  | Some f =>
      length (filter (fun layer => hubv1.Optional layer = false)
                (hubv1.CustomizationLayers f))
  | None => 0
  end.

(** Modelled from the spec: [GetLayerOption] is not among the sources.
    "Resolve the option by name within the layer's option set": the
    option when the layer has one with this id, a lookup error (and a
    nil option) otherwise. *)
Definition GetLayerOption (optionId : string) (layer : hubv1.Layer)
    : result hubv1.LayerOption :=
  match List.find (fun option => bool_decide (hubv1.LayerOption_Id option = optionId))
          (hubv1.Options layer) with
  | Some option => Ok option
  | None =>
      Err (Errorf ("no option " +:+ optionId +:+ " in layer " +:+ hubv1.Layer_Id layer))
  end.

(** Modelled from the spec: [GetLayerOptionFromFlavor] is not among the
    sources.  "Resolve its option": the layer with this id among the
    flavor's layers, then the option within it. *)
Definition GetLayerOptionFromFlavor (layerId optionId : string)
    (flavor : option hubv1.Flavor) : result hubv1.LayerOption :=
  match flavor with
  | None => Err (Errorf ("no flavor to resolve layer " +:+ layerId))
  | Some f =>
      match List.find (fun layer => bool_decide (hubv1.Layer_Id layer = layerId))
              (hubv1.CustomizationLayers f) with
      | Some layer => GetLayerOption optionId layer
      | None => Err (Errorf ("no layer " +:+ layerId +:+ " in flavor"))
      end
  end.

(** Modelled from the spec: [WithLabels] belongs to a collaborator.
    "Return only resources whose label set contains every required
    key/value pair (exact match on both key and value)." *)
Definition WithLabels (labels : gmap string string)
    (resources : list UnstructuredResource) : list UnstructuredResource :=
  filter (fun resource =>
            map_Forall (fun key val => default ∅ (GetLabels resource) !! key = Some val)
              labels)
    resources.

(** ** Collaborators

    What the renderer calls but does not implement: YAML conversion,
    the template engine, the dependency validator, chart rendering,
    archive download, conversion between manifests and resources, and
    the order in which a [range] visits a map. *)
Record Collaborators : Type := {
  Manifest : Type;
  template : Type;
  range_map : ∀ V : Type, gmap string V → list (string * V);
  validate : list string → option error;
  ConvertYamlStringToNestedMap : string → result (gmap string value);
  ConvertNestedMapToYaml : gmap string value → result string;
  template_Parse : string → string → result template;
  template_Execute : template → heap → ValuesInputs → result string;
  RenderManifests : string → string → string → string → string → result (list Manifest);
  RenderManifestsFromGithub :
    GithubChartRef → string → string → string → string → result (list Manifest);
  GetManifestsFromRemoteTar : string → result (list Manifest);
  ResourceList : list Manifest → result (list UnstructuredResource);
  ManifestsFromResources : list UnstructuredResource → result (list Manifest);
  ApplyLayers : heap → ValuesInputs → list Manifest → result (list UnstructuredResource)
}.
Arguments range_map env {V} m : rename.

(** ** The renderer *)

Section Renderer.

Variable env : Collaborators.

(** *** ValidateInputs *)

(** The inner loop over [inputs.Layers]: every matching input assigns
    [optionId], which starts as the empty string. *)
Definition selectedOptionId (layers : list LayerInput) (flavorLayer : hubv1.Layer)
    : string :=
  fold_left (fun optionId layerInput =>
               if decide (LayerId layerInput = hubv1.Layer_Id flavorLayer)
               then OptionId layerInput
               else optionId)
    layers EmptyString.

(** The loop over the flavor's layers, accumulating [selectedOptions]. *)
Fixpoint selectOptions (layers : list LayerInput) (flavorLayers : list hubv1.Layer)
    (selectedOptions : list hubv1.LayerOption) : result (list hubv1.LayerOption) :=
  match flavorLayers with
  | [] => Ok selectedOptions
  | flavorLayer :: rest =>
      let optionId := selectedOptionId layers flavorLayer in
      match GetLayerOption optionId flavorLayer with
      | Err err =>
          if negb (hubv1.Optional flavorLayer)
          then Err (MissingInputForRequiredLayer err)
          else selectOptions layers rest selectedOptions
      | Ok option => selectOptions layers rest (selectedOptions ++ [option])
      | Panic => Panic
      end
  end.

Fixpoint validateOptions (selectedOptions : list hubv1.LayerOption) : result unit :=
  match selectedOptions with
  | [] => Ok tt
  | o :: rest =>
      match validate env (hubv1.ResourceDependencies o) with
      | Some err => Err err
      | None => validateOptions rest
      end
  end.

(** [for _, param := range params { allParameters[param.Name] = param }] *)
Definition addParameters (params : list hubv1.Param)
    (allParameters : gmap string hubv1.Param) : gmap string hubv1.Param :=
  fold_left (fun all param => <[hubv1.Param_Name param := param]> all)
    params allParameters.

(** [inputs.Flavor.GetParameters()], which tolerates a nil flavor. *)
Definition flavorParameters (flavor : option hubv1.Flavor) : list hubv1.Param :=
  match flavor with
  | Some f => hubv1.Flavor_Parameters f
  | None => []
  end.

Definition collectParameters (spec : hubv1.VersionedApplicationSpec)
    (flavor : option hubv1.Flavor) (selectedOptions : list hubv1.LayerOption)
    : gmap string hubv1.Param :=
  fold_left (fun all option => addParameters (hubv1.LayerOption_Parameters option) all)
    selectedOptions
    (addParameters (flavorParameters flavor)
       (addParameters (hubv1.GetParameters spec) ∅)).

Fixpoint checkRequired (entries : list (string * hubv1.Param))
    (params : gmap string string) : result unit :=
  match entries with
  | [] => Ok tt
  | (_, param) :: rest =>
      if hubv1.Param_Required param
         && bool_decide (index_map params (hubv1.Param_Name param) = EmptyString)
      then Err (MissingInputForRequireParam (hubv1.Param_Name param))
      else checkRequired rest params
  end.

Fixpoint checkRecognized (entries : list (string * string))
    (allParameters : gmap string hubv1.Param) : result unit :=
  match entries with
  | [] => Ok tt
  | (name, _) :: rest =>
      match allParameters !! name with
      | None => Err (UnrecognizedParamError name)
      | Some _ => checkRecognized rest allParameters
      end
  end.

Definition ValidateInputs (h : heap) (inputs : ValuesInputs)
    (spec : hubv1.VersionedApplicationSpec) : result unit :=
  if decide (length (Layers inputs) < GetRequiredLayerCount (Flavor inputs))
  then Err IncorrectNumberOfInputLayersError
  else
    match Flavor inputs with
    | None => Panic
    | Some flavor =>
        selectedOptions ←
          selectOptions (Layers inputs) (hubv1.CustomizationLayers flavor) [];
        validateOptions selectedOptions;;
        let allParameters :=
          collectParameters spec (Flavor inputs) selectedOptions in
        checkRequired (range_map env allParameters) (deref h (Params inputs));;
        checkRecognized (range_map env (deref h (Params inputs))) allParameters
    end.

(** *** ComputeValueOverrides *)

Fixpoint coalesceLayers (flavor : option hubv1.Flavor) (layers : list LayerInput)
    (valuesMap : gmap string value) : result (gmap string value) :=
  match layers with
  | [] => Ok valuesMap
  | layerInput :: rest =>
      option ← GetLayerOptionFromFlavor (LayerId layerInput) (OptionId layerInput) flavor;
      if decide (hubv1.HelmValues option ≠ EmptyString)
      then
        layerValues ← ConvertYamlStringToNestedMap env (hubv1.HelmValues option);
        coalesceLayers flavor rest (CoalesceValuesMap valuesMap layerValues)
      else coalesceLayers flavor rest valuesMap
  end.

Definition ComputeValueOverrides (h : heap) (inputs : ValuesInputs) : result string :=
  let valuesMap : gmap string value := ∅ in
  specValues ← ConvertYamlStringToNestedMap env (SpecDefinedValues inputs);
  let valuesMap := CoalesceValuesMap valuesMap specValues in
  valuesMap ← coalesceLayers (Flavor inputs) (Layers inputs) valuesMap;
  paramValues ← ConvertParamsToNestedMap (range_map env (deref h (Params inputs)));
  let valuesMap := CoalesceValuesMap valuesMap paramValues in
  userValues ← ConvertYamlStringToNestedMap env (UserDefinedValues inputs);
  let valuesMap := CoalesceValuesMap valuesMap userValues in
  ConvertNestedMapToYaml env valuesMap.

(** What a layer input contributes to the values: the parsed values
    fragment of the option it resolves to, nothing when the option
    carries no fragment. *)
Definition layerFragment (flavor : option hubv1.Flavor) (layerInput : LayerInput)
    (fragment : gmap string value) : Prop :=
  ∃ option,
    GetLayerOptionFromFlavor (LayerId layerInput) (OptionId layerInput) flavor = Ok option
    ∧ if decide (hubv1.HelmValues option ≠ EmptyString)
      then ConvertYamlStringToNestedMap env (hubv1.HelmValues option) = Ok fragment
      else fragment = ∅.

(** *** Acquiring manifests *)

Definition getManifestsFromHelm (helmInstallSpec : option hubv1.TgzLocation)
    (inputs : ValuesInputs) : M (list (Manifest env)) :=
  values ← reading (fun h => ComputeValueOverrides h inputs);
  match helmInstallSpec with
  | None => lift Panic
  | Some location =>
      call (RenderManifestsCall (hubv1.Uri location) values (Name inputs)
              (InstallNamespace inputs) EmptyString)
        (wrap_error FailedToRenderManifestsError
           (RenderManifests env (hubv1.Uri location) values (Name inputs)
              (InstallNamespace inputs) EmptyString))
  end.

Definition getManifestsFromGithub (githubInstallSpec : option hubv1.GithubRepositoryLocation)
    (inputs : ValuesInputs) : M (list (Manifest env)) :=
  match githubInstallSpec with
  | None => lift Panic
  | Some location =>
      let ref := {| Owner := hubv1.Org location;
                    ChartRepo := hubv1.Repo location;
                    ChartRef := hubv1.Ref location;
                    ChartDirectory := hubv1.Directory location |} in
      values ← reading (fun h => ComputeValueOverrides h inputs);
      call (RenderManifestsFromGithubCall ref values (Name inputs)
              (InstallNamespace inputs) EmptyString)
        (wrap_error FailedToRenderManifestsError
           (RenderManifestsFromGithub env ref values (Name inputs)
              (InstallNamespace inputs) EmptyString))
  end.

(** [manifestsArchive.GetUri()] tolerates a nil archive. *)
Definition GetUri (manifestsArchive : option hubv1.TgzLocation) : string :=
  match manifestsArchive with
  | Some location => hubv1.Uri location
  | None => EmptyString
  end.

Definition getManifestsFromArchive (manifestsArchive : option hubv1.TgzLocation)
    (inputs : ValuesInputs) : M (list (Manifest env)) :=
  call (GetManifestsFromRemoteTarCall (GetUri manifestsArchive))
    (wrap_error FailedToRenderManifestsError
       (GetManifestsFromRemoteTar env (GetUri manifestsArchive))).

Definition getManifestsFromInstallationStep (inputs : ValuesInputs)
    (step : hubv1.InstallationSteps_Step) : M (list (Manifest env)) :=
  match hubv1.Step step with
  | hubv1.Step_GithubChart chart => getManifestsFromGithub chart inputs
  | hubv1.Step_HelmArchive archive => getManifestsFromHelm archive inputs
  | hubv1.Step_ManifestsArchive archive => getManifestsFromArchive archive inputs
  | hubv1.Step_Unset | hubv1.Step_Unrecognized => lift (Err MissingInstallSpecError)
  end.

Definition InstallationStepLabel : string :=
  "service-mesh-hub.solo.io/installation_step".

(** The body of the loop over a step's resources. *)
Definition labelResource (stepName : string) (resource : UnstructuredResource)
    : UnstructuredResource :=
  let labels :=
    match GetLabels resource with
    | Some labels => labels
    | None => ∅
    end in
  SetLabels (<[InstallationStepLabel := stepName]> labels) resource.

(** The loop over [steps.Steps], with its two accumulators. *)
Fixpoint stepsLoop (steps : list hubv1.InstallationSteps_Step) (inputs : ValuesInputs)
    (uniqueStepNames : list string) (combinedManifests : list (Manifest env))
    : M (list (Manifest env)) :=
  match steps with
  | [] => mret combinedManifests
  | step :: rest =>
      if decide (hubv1.Step_Name step = EmptyString)
      then lift (Err (Errorf "step must be named"))
      else
        match List.find (fun name => bool_decide (hubv1.Step_Name step = name))
                uniqueStepNames with
        | Some name =>
            lift (Err (Errorf ("step names must be unique; " +:+ name +:+ " duplicated")))
        | None =>
            let uniqueStepNames := uniqueStepNames ++ [hubv1.Step_Name step] in
            manifests ← getManifestsFromInstallationStep inputs step;
            resources ← lift (ResourceList env manifests);
            let resources := map (labelResource (hubv1.Step_Name step)) resources in
            manifests ← lift (ManifestsFromResources env resources);
            stepsLoop rest inputs uniqueStepNames (combinedManifests ++ manifests)
        end
  end.

Definition getManifestsFromSteps (steps : option hubv1.InstallationSteps)
    (inputs : ValuesInputs) : M (list (Manifest env)) :=
  match steps with
  | None => lift Panic
  | Some steps =>
      if decide (length (hubv1.Steps steps) = 0)
      then lift (Err (Errorf "must provide at least one installation step"))
      else stepsLoop (hubv1.Steps steps) inputs [] []
  end.

Definition GetManifestsFromApplicationSpec (inputs : ValuesInputs)
    (spec : hubv1.VersionedApplicationSpec) : M (list (Manifest env)) :=
  match hubv1.GetInstallationSpec spec with
  | hubv1.Spec_GithubChart chart => getManifestsFromGithub chart inputs
  | hubv1.Spec_HelmArchive archive => getManifestsFromHelm archive inputs
  | hubv1.Spec_ManifestsArchive archive => getManifestsFromArchive archive inputs
  | hubv1.Spec_InstallationSteps steps => getManifestsFromSteps steps inputs
  | hubv1.Spec_Unset | hubv1.Spec_Unrecognized => lift (Err MissingInstallSpecError)
  end.

(** *** FilterByLabel *)

Definition FilterByLabel (spec : hubv1.VersionedApplicationSpec)
    (resources : list UnstructuredResource) : list UnstructuredResource :=
  let labels := hubv1.GetRequiredLabels spec in
  if decide (0 < size labels) then WithLabels labels resources else resources.

(** *** ExecInputValuesTemplates *)

(** [tpl.Execute(buf, inputs)] followed by [buf.String()]: the data
    the template sees is the bundle and, through its [Params] field,
    the current contents of the shared map. *)
Definition execute (tpl : template env) (inputs : ValuesInputs) : M string :=
  reading (fun h => template_Execute env tpl h inputs).

(** The loop over [inputs.Params].  Each entry is overwritten only
    after it has been read, so the value the [range] hands to the body
    is the one the map held when the loop started. *)
Fixpoint renderParams (entries : list (string * string)) (inputs : ValuesInputs)
    : M unit :=
  match entries with
  | [] => mret tt
  | (paramName, paramValue) :: rest =>
      t ← lift (Must (template_Parse env paramName paramValue));
      text ← execute t inputs;
      store_param (Params inputs) paramName text;;
      renderParams rest inputs
  end.

(** On an error the Go function returns the zero bundle next to it;
    [Err] carries only the error, the caller never reads the bundle. *)
Definition ExecInputValuesTemplates (inputs : ValuesInputs) : M ValuesInputs :=
  tpl ← lift (Must (template_Parse env "specValues" (SpecDefinedValues inputs)));
  text ← execute tpl inputs;
  let inputs := with_SpecDefinedValues text inputs in
  tpl ← lift (Must (template_Parse env "userValues" (UserDefinedValues inputs)));
  text ← execute tpl inputs;
  let inputs := with_UserDefinedValues text inputs in
  entries ← reading (fun h => Ok (range_map env (deref h (Params inputs))));
  renderParams entries inputs;;
  mret inputs.

(** *** ComputeResourcesForApplication *)

Definition wrapping {A} (wrap : error → error) (m : M A) : M A :=
  fun w => let '(r, w') := m w in (wrap_error wrap r, w').

(** The call to [ValidateInputs] in this method names no validator,
    while the function takes one: the validator is the one the renderer
    was built with, a collaborator. *)
Definition ComputeResourcesForApplication (inputs : ValuesInputs)
    (spec : hubv1.VersionedApplicationSpec) : M (list UnstructuredResource) :=
  reading (fun h => ValidateInputs h inputs spec);;
  inputs ← wrapping FailedRenderValueTemplatesError (ExecInputValuesTemplates inputs);
  manifests ← GetManifestsFromApplicationSpec inputs spec;
  rawResources ← reading (fun h => ApplyLayers env h inputs manifests);
  mret (FilterByLabel spec rawResources).

(** *** The behaviour the specification words describe, for comparison *)


(** "Fixed pipeline, short-circuiting on first error: validate, expand
    templates, acquire manifests, filter by label." *)
Definition fourStagePipeline (inputs : ValuesInputs)
    (spec : hubv1.VersionedApplicationSpec) : M (list UnstructuredResource) :=
  reading (fun h => ValidateInputs h inputs spec);;
  inputs ← wrapping FailedRenderValueTemplatesError (ExecInputValuesTemplates inputs);
  manifests ← GetManifestsFromApplicationSpec inputs spec;
  resources ← lift (ResourceList env manifests);
  mret (FilterByLabel spec resources).

(** *** Notions used to state the properties *)

(** The option id of the last input that names the layer, the empty
    string when no input does. *)
Definition lastMatchOptionId (layers : list LayerInput) (flavorLayer : hubv1.Layer)
    : string :=
  from_option OptionId EmptyString
    (last (filter (fun layerInput => LayerId layerInput = hubv1.Layer_Id flavorLayer)
             layers)).

(** The options the flavor's layers resolve to under the last-match
    rule, in the order of the layers; a layer that does not resolve
    contributes none. *)
Definition resolvedOptions (layers : list LayerInput) (flavorLayers : list hubv1.Layer)
    : list hubv1.LayerOption :=
  omap (fun flavorLayer =>
          match GetLayerOption (lastMatchOptionId layers flavorLayer) flavorLayer with
          | Ok option => Some option
          | _ => None
          end)
    flavorLayers.

(** Every declaration the parameter namespace is built from, in the
    order of the overlays: spec, flavor, selected options. *)
Definition declaredParameters (spec : hubv1.VersionedApplicationSpec)
    (flavor : option hubv1.Flavor) (selectedOptions : list hubv1.LayerOption)
    : list hubv1.Param :=
  hubv1.GetParameters spec ++ flavorParameters flavor
    ++ concat (hubv1.LayerOption_Parameters <$> selectedOptions).

(** The last declaration of a name in a list of declarations. *)
Definition lastDeclared (name : string) (params : list hubv1.Param)
    : option hubv1.Param :=
  last (filter (fun param => hubv1.Param_Name param = name) params).

(** A [range] over a map visits each of its entries exactly once. *)
Definition range_visits_all : Prop :=
  ∀ (V : Type) (m : gmap string V), range_map env m ≡ₚ map_to_list m.

(** The outcome of acquiring one step's manifests against given
    parameter maps, and the collaborator calls this makes. *)
Definition stepResult (h : heap) (inputs : ValuesInputs)
    (step : hubv1.InstallationSteps_Step) : result (list (Manifest env)) :=
  fst (getManifestsFromInstallationStep inputs step {| w_heap := h; w_trace := [] |}).

Definition stepCalls (h : heap) (inputs : ValuesInputs)
    (step : hubv1.InstallationSteps_Step) : list event :=
  w_trace (snd (getManifestsFromInstallationStep inputs step
                  {| w_heap := h; w_trace := [] |})).




End Renderer.

(** ** A small concrete set of collaborators

    Enough of YAML (flat [key: value] lines), of the template language
    (text and [{{.Field}}] actions over the string fields of the bundle)
    and of chart rendering (one manifest per resource) to run the
    renderer on concrete bundles. *)

Module Fixture.

Definition newline : string := String (ascii_of_nat 10) EmptyString.

Fixpoint split_lines (s : string) : list string :=
  match s with
  | EmptyString => [EmptyString]
  | String c s' =>
      if Ascii.eqb c (ascii_of_nat 10) then EmptyString :: split_lines s'
      else match split_lines s' with
           | [] => [String c EmptyString]
           | line :: lines => String c line :: lines
           end
  end.

Fixpoint parse_lines (lines : list string) (acc : gmap string value)
    : result (gmap string value) :=
  match lines with
  | [] => Ok acc
  | line :: rest =>
      if bool_decide (line = EmptyString) then parse_lines rest acc
      else match String.index 0 ": " line with
           | Some n =>
               parse_lines rest
                 (<[String.substring 0 n line :=
                      VScalar (String.substring (n + 2)
                                 (String.length line - (n + 2)) line)]> acc)
           | None => Err (ExternalError ("yaml: cannot parse " +:+ line))
           end
  end.

Definition parse_yaml (text : string) : result (gmap string value) :=
  parse_lines (split_lines text) ∅.

Fixpoint render_value (v : value) : string :=
  match v with
  | VScalar s => s
  | VSeq l => "[" +:+ foldr (fun item acc => render_value item +:+ "," +:+ acc) "]" l
  | VMap m =>
      "{" +:+ map_fold (fun key item acc => key +:+ ": " +:+ render_value item +:+ "," +:+ acc)
                "}" m
  end.

Definition render_yaml (m : gmap string value) : result string :=
  Ok (map_fold (fun key item acc => key +:+ ": " +:+ render_value item +:+ newline +:+ acc)
        EmptyString m).

Inductive node : Type :=
  | TextNode (text : string)
  | FieldNode (field : string).

(** [fuel] bounds the number of actions, which is below the length of
    the text. *)
Fixpoint parse_nodes (fuel : nat) (text : string) : result (list node) :=
  match fuel with
  | 0 => Ok [TextNode text]
  | S fuel' =>
      match String.index 0 "{{" text with
      | None => Ok [TextNode text]
      | Some start =>
          let after := String.substring (start + 2)
                         (String.length text - (start + 2)) text in
          match String.index 0 "}}" after with
          | None => Err (ExternalError "template: unclosed action")
          | Some stop =>
              match String.substring 0 stop after with
              | String "." field =>
                  nodes ← parse_nodes fuel'
                            (String.substring (stop + 2)
                               (String.length after - (stop + 2)) after);
                  Ok (TextNode (String.substring 0 start text) :: FieldNode field :: nodes)
              | _ => Err (ExternalError "template: unexpected token in action")
              end
          end
      end
  end.

Definition parse_template (name text : string) : result (list node) :=
  parse_nodes (String.length text) text.

(** The string fields of the bundle; the remaining fields are not
    rendered by this engine, any other name is not a field at all. *)
Definition eval_field (field : string) (inputs : ValuesInputs) : result string :=
  if bool_decide (field = "Name") then Ok (Name inputs)
  else if bool_decide (field = "InstallNamespace") then Ok (InstallNamespace inputs)
  else if bool_decide (field = "SpecDefinedValues") then Ok (SpecDefinedValues inputs)
  else if bool_decide (field = "UserDefinedValues") then Ok (UserDefinedValues inputs)
  else Err (ExternalError ("template: can't evaluate field " +:+ field
                           +:+ " in type render.ValuesInputs")).

Fixpoint execute_nodes (nodes : list node) (inputs : ValuesInputs) : result string :=
  match nodes with
  | [] => Ok EmptyString
  | TextNode text :: rest =>
      out ← execute_nodes rest inputs; Ok (text +:+ out)
  | FieldNode field :: rest =>
      val ← eval_field field inputs;
      out ← execute_nodes rest inputs; Ok (val +:+ out)
  end.

(** A chart renders to two resources, the first without labels. *)
Definition rendered (source values : string) : list UnstructuredResource :=
  [ {| GetLabels := None; Object := source +:+ "/deployment" |};
    {| GetLabels := Some {[ "tier" := "frontend" ]}; Object := source +:+ "/service" |} ].

Definition fetch (uri : string) : result (list UnstructuredResource) :=
  if bool_decide (uri = EmptyString)
  then Err (ExternalError "archive: no uri")
  else Ok (rendered uri EmptyString).

Definition collaborators
    (applyLayers : heap → ValuesInputs → list UnstructuredResource →
                   result (list UnstructuredResource)) : Collaborators :=
  {| Manifest := UnstructuredResource;
     template := list node;
     range_map := fun V m => map_to_list m;
     validate := fun _ => None;
     ConvertYamlStringToNestedMap := parse_yaml;
     ConvertNestedMapToYaml := render_yaml;
     template_Parse := parse_template;
     template_Execute := fun tpl _ inputs => execute_nodes tpl inputs;
     RenderManifests := fun uri values _ _ _ => Ok (rendered uri values);
     RenderManifestsFromGithub := fun ref values _ _ _ => Ok (rendered (ChartRepo ref) values);
     GetManifestsFromRemoteTar := fetch;
     ResourceList := Ok;
     ManifestsFromResources := Ok;
     ApplyLayers := applyLayers |}.

(** The layers stage as the identity on resources. *)
Definition plain : Collaborators := collaborators (fun _ _ manifests => Ok manifests).

(** A layers stage that rejects every manifest set. *)
Definition rejecting : Collaborators :=
  collaborators (fun _ _ _ => Err (ExternalError "layers: rejected")).


(** Sample data: a flavor with one required layer offering two options,
    a spec installing from a packaged archive, and bundles over them. *)

Definition option_strict : hubv1.LayerOption :=
  {| hubv1.LayerOption_Id := "strict";
     hubv1.HelmValues := "x: 2";
     hubv1.LayerOption_Parameters :=
       [ {| hubv1.Param_Name := "mtls"; hubv1.Param_Required := true |} ];
     hubv1.ResourceDependencies := [] |}.

Definition option_permissive : hubv1.LayerOption :=
  {| hubv1.LayerOption_Id := "permissive";
     hubv1.HelmValues := EmptyString;
     hubv1.LayerOption_Parameters := [];
     hubv1.ResourceDependencies := [] |}.

Definition layer_security : hubv1.Layer :=
  {| hubv1.Layer_Id := "security";
     hubv1.Optional := false;
     hubv1.Options := [option_strict; option_permissive] |}.

Definition flavor : hubv1.Flavor :=
  {| hubv1.CustomizationLayers := [layer_security];
     hubv1.Flavor_Parameters :=
       [ {| hubv1.Param_Name := "x"; hubv1.Param_Required := false |} ] |}.

Definition select (optionId : string) : LayerInput :=
  {| LayerId := "security"; OptionId := optionId |}.

Definition bundle (layers : list LayerInput) (specValues userValues : string)
    : ValuesInputs :=
  {| Name := "demo";
     InstallNamespace := "app";
     Flavor := Some flavor;
     Layers := layers;
     MeshRef := {| ResourceRef_Name := "linkerd"; ResourceRef_Namespace := "app" |};
     UserDefinedValues := userValues;
     SpecDefinedValues := specValues;
     Params := Some 1%positive |}.

(** The world in which the bundle's parameter map holds [params] and
    no collaborator has been called yet. *)
Definition start (params : gmap string string) : world :=
  {| w_heap := {[ 1%positive := params ]}; w_trace := [] |}.

Definition archive_spec (source : hubv1.InstallationSpec) : hubv1.VersionedApplicationSpec :=
  {| hubv1.GetInstallationSpec := source;
     hubv1.GetParameters := [];
     hubv1.GetRequiredLabels := ∅ |}.

Definition archive_step (name uri : string) : hubv1.InstallationSteps_Step :=
  {| hubv1.Step_Name := name;
     hubv1.Step := hubv1.Step_ManifestsArchive (Some {| hubv1.Uri := uri |}) |}.



Definition with_RenderManifests
    (render : string → string → string → string → string →
              result (list UnstructuredResource)) : Collaborators :=
  {| Manifest := UnstructuredResource;
     template := template plain;
     range_map := fun V m => range_map plain m;
     validate := validate plain;
     ConvertYamlStringToNestedMap := ConvertYamlStringToNestedMap plain;
     ConvertNestedMapToYaml := ConvertNestedMapToYaml plain;
     template_Parse := template_Parse plain;
     template_Execute := template_Execute plain;
     RenderManifests := render;
     RenderManifestsFromGithub := RenderManifestsFromGithub plain;
     GetManifestsFromRemoteTar := GetManifestsFromRemoteTar plain;
     ResourceList := ResourceList plain;
     ManifestsFromResources := ManifestsFromResources plain;
     ApplyLayers := ApplyLayers plain |}.


(** An engine that finds no chart. *)
Definition no_chart (uri values releaseName namespace kubeVersion : string)
    : result (list UnstructuredResource) :=
  Err (ExternalError ("render: no chart at " +:+ uri)).





Definition with_Params (ref : option positive) (inputs : ValuesInputs) : ValuesInputs :=
  {| Name := Name inputs; InstallNamespace := InstallNamespace inputs;
     Flavor := Flavor inputs; Layers := Layers inputs; MeshRef := MeshRef inputs;
     UserDefinedValues := UserDefinedValues inputs;
     SpecDefinedValues := SpecDefinedValues inputs;
     Params := ref |}.

Definition helm_spec (uri : string) : hubv1.VersionedApplicationSpec :=
  archive_spec (hubv1.Spec_HelmArchive (Some {| hubv1.Uri := uri |})).

End Fixture.

(** * Properties *)

(** ** Coalescing *)


Lemma CoalesceValuesMap_empty_r (dst : gmap string value) :
  CoalesceValuesMap dst ∅ = dst.
Proof. unfold CoalesceValuesMap. by rewrite map_fold_empty. Qed.








Example coalesce_keeps_siblings :
  CoalesceValuesMap
    {[ "a" := VMap {[ "b" := VScalar "1"; "c" := VScalar "2" ]} ]}
    {[ "a" := VMap {[ "b" := VScalar "9" ]} ]}
  = {[ "a" := VMap {[ "b" := VScalar "9"; "c" := VScalar "2" ]} ]}.
Proof. by vm_compute. Qed.

Example coalesce_replaces_sequences :
  CoalesceValuesMap
    {[ "a" := VSeq [VScalar "1"; VScalar "2"] ]}
    {[ "a" := VSeq [VScalar "3"] ]}
  = {[ "a" := VSeq [VScalar "3"] ]}.
Proof. by vm_compute. Qed.

Example params_expand_dotted_paths :
  ConvertParamsToNestedMap [("a.b.c", "v")]
  = Ok {[ "a" := VMap {[ "b" := VMap {[ "c" := VScalar "v" ]} ]} ]}.
Proof. by vm_compute. Qed.

Section Properties.

Variable env : Collaborators.

(** ** ComputeValueOverrides *)



(** ** ValidateInputs: layer selections *)

Lemma fold_selection_last (flavorLayer : hubv1.Layer) (layers : list LayerInput)
    (optionId : string) :
  fold_left (fun optionId layerInput =>
               if decide (LayerId layerInput = hubv1.Layer_Id flavorLayer)
               then OptionId layerInput
               else optionId)
    layers optionId
  = from_option OptionId optionId
      (last (filter (fun layerInput => LayerId layerInput = hubv1.Layer_Id flavorLayer)
               layers)).
Proof.
  revert optionId. induction layers as [|layerInput layers IH]; intros optionId; [done|].
  simpl. rewrite IH. rewrite filter_cons.
  destruct (decide (LayerId layerInput = hubv1.Layer_Id flavorLayer)); [|done].
  rewrite last_cons. by destruct (last _).
Qed.

Lemma selectedOptionId_last (layers : list LayerInput) (flavorLayer : hubv1.Layer) :
  selectedOptionId layers flavorLayer = lastMatchOptionId layers flavorLayer.
Proof. apply fold_selection_last. Qed.

Lemma GetLayerOption_returns (optionId : string) (layer : hubv1.Layer) :
  GetLayerOption optionId layer ≠ Panic.
Proof. unfold GetLayerOption. by destruct (List.find _ _). Qed.


(** When every required layer resolves with its last matching
    selection, the selected options are the options so resolved, in the
    order of the flavor's layers. *)
Lemma selectOptions_resolved (layers : list LayerInput)
    (flavorLayers : list hubv1.Layer) (selectedOptions : list hubv1.LayerOption) :
  Forall (fun flavorLayer =>
            hubv1.Optional flavorLayer = false →
            ∃ option, GetLayerOption (lastMatchOptionId layers flavorLayer) flavorLayer
                      = Ok option)
    flavorLayers →
  selectOptions layers flavorLayers selectedOptions
  = Ok (selectedOptions ++ resolvedOptions layers flavorLayers).
Proof.
  intros Hrequired. revert selectedOptions. unfold resolvedOptions.
  induction Hrequired as [|flavorLayer flavorLayers Hresolves _ IH];
    intros selectedOptions; simpl.
  - by rewrite app_nil_r.
  - rewrite selectedOptionId_last.
    destruct (GetLayerOption (lastMatchOptionId layers flavorLayer) flavorLayer)
      as [option|err|] eqn:Hoption.
    + rewrite IH. by rewrite <- app_assoc.
    + destruct (hubv1.Optional flavorLayer); simpl; [apply IH|].
      by destruct Hresolves as [? ?].
    + by apply GetLayerOption_returns in Hoption.
Qed.


(** ** ValidateInputs: the parameter namespace *)

Lemma addParameters_lookup (name : string) (params : list hubv1.Param)
    (allParameters : gmap string hubv1.Param) :
  addParameters params allParameters !! name
  = match lastDeclared name params with
    | Some param => Some param
    | None => allParameters !! name
    end.
Proof.
  revert allParameters. unfold addParameters, lastDeclared.
  induction params as [|param params IH]; intros allParameters; [done|].
  simpl. rewrite IH, filter_cons.
  destruct (decide (hubv1.Param_Name param = name)) as [<-|Hne].
  - rewrite last_cons, lookup_insert_eq. by destruct (last _).
  - by rewrite lookup_insert_ne.
Qed.

Lemma addParameters_app (params1 params2 : list hubv1.Param)
    (allParameters : gmap string hubv1.Param) :
  addParameters (params1 ++ params2) allParameters
  = addParameters params2 (addParameters params1 allParameters).
Proof. apply fold_left_app. Qed.

Lemma addParameters_options (selectedOptions : list hubv1.LayerOption)
    (allParameters : gmap string hubv1.Param) :
  fold_left (fun all option => addParameters (hubv1.LayerOption_Parameters option) all)
    selectedOptions allParameters
  = addParameters (concat (hubv1.LayerOption_Parameters <$> selectedOptions)) allParameters.
Proof.
  revert allParameters.
  induction selectedOptions as [|option selectedOptions IH]; intros allParameters; [done|].
  simpl. by rewrite IH, addParameters_app.
Qed.

(** The namespace maps each name to its last declaration. *)
Lemma collectParameters_lookup (spec : hubv1.VersionedApplicationSpec)
    (flavor : option hubv1.Flavor) (selectedOptions : list hubv1.LayerOption)
    (name : string) :
  collectParameters spec flavor selectedOptions !! name
  = lastDeclared name (declaredParameters spec flavor selectedOptions).
Proof.
  unfold collectParameters, declaredParameters.
  rewrite addParameters_options, <- !addParameters_app, addParameters_lookup.
  rewrite lookup_empty. by destruct (lastDeclared _ _).
Qed.

Lemma lastDeclared_name (name : string) (params : list hubv1.Param) (param : hubv1.Param) :
  lastDeclared name params = Some param → hubv1.Param_Name param = name.
Proof.
  unfold lastDeclared. intros Hlast%last_Some_elem_of.
  by apply list_elem_of_filter in Hlast as [? _].
Qed.

Lemma index_map_empty (m : gmap string string) (name : string) :
  index_map m name = EmptyString ↔ m !! name = None ∨ m !! name = Some EmptyString.
Proof.
  unfold index_map. destruct (m !! name) as [text|]; simpl; intuition congruence.
Qed.

Lemma checkRequired_cases (entries : list (string * hubv1.Param))
    (params : gmap string string) :
  (checkRequired entries params = Ok tt
   ∧ Forall (fun entry =>
               ¬ (hubv1.Param_Required entry.2 = true
                  ∧ index_map params (hubv1.Param_Name entry.2) = EmptyString))
       entries)
  ∨ (∃ entry,
       entry ∈ entries
       ∧ hubv1.Param_Required entry.2 = true
       ∧ index_map params (hubv1.Param_Name entry.2) = EmptyString
       ∧ checkRequired entries params
         = Err (MissingInputForRequireParam (hubv1.Param_Name entry.2))).
Proof.
  induction entries as [|[key param] entries IH]; simpl.
  - left. by split.
  - destruct (hubv1.Param_Required param) eqn:Hreq; simpl.
    + case_bool_decide as Hempty.
      * right. exists (key, param). split; [left|done].
      * destruct IH as [[Hok Hall]|(entry & Hin & ? & ? & ?)].
        -- left. split; [done|]. constructor; [|done]. simpl. tauto.
        -- right. exists entry. split; [by right|done].
    + destruct IH as [[Hok Hall]|(entry & Hin & ? & ? & ?)].
      * left. split; [done|]. constructor; [|done]. simpl. rewrite Hreq. by intros [? _].
      * right. exists entry. split; [by right|done].
Qed.

Lemma checkRecognized_cases (entries : list (string * string))
    (allParameters : gmap string hubv1.Param) :
  (checkRecognized entries allParameters = Ok tt
   ∧ Forall (fun entry => is_Some (allParameters !! entry.1)) entries)
  ∨ (∃ entry,
       entry ∈ entries
       ∧ allParameters !! entry.1 = None
       ∧ checkRecognized entries allParameters = Err (UnrecognizedParamError entry.1)).
Proof.
  induction entries as [|[name text] entries IH]; simpl.
  - left. by split.
  - destruct (allParameters !! name) as [param|] eqn:Hname.
    + destruct IH as [[Hok Hall]|(entry & Hin & ? & ?)].
      * left. split; [done|]. constructor; [|done]. simpl. by rewrite Hname.
      * right. exists entry. split; [by right|done].
    + right. exists (name, text). split; [left|done].
Qed.

Lemma elem_of_range_map {V : Type} (m : gmap string V) (key : string) (v : V) :
  range_visits_all env → (key, v) ∈ range_map env m ↔ m !! key = Some v.
Proof. intros Hrange. by rewrite (Hrange V m), elem_of_map_to_list. Qed.


(** C7.  Once the layers are resolved and their dependencies accepted,
    the parameter namespace maps each name to its last declaration among
    spec, flavor and selected options (a later overlay replaces an
    earlier entry whole).  If some required parameter of the namespace
    has no supplied value or an empty one, validation fails with
    [MissingInputForRequireParam] for such a parameter; otherwise, if
    some supplied name is not in the namespace, it fails with
    [UnrecognizedParamError] for such a name; otherwise it succeeds.
    The required check thus comes first and only its error is returned
    when both checks would fail. *)
Theorem ValidateInputs_parameters (h : heap) (inputs : ValuesInputs)
    (spec : hubv1.VersionedApplicationSpec) (flavor : hubv1.Flavor)
    (selectedOptions : list hubv1.LayerOption) :
  range_visits_all env →
  ¬ length (Layers inputs) < GetRequiredLayerCount (Flavor inputs) →
  Flavor inputs = Some flavor →
  selectOptions (Layers inputs) (hubv1.CustomizationLayers flavor) [] = Ok selectedOptions →
  validateOptions env selectedOptions = Ok tt →
  let namespace := collectParameters spec (Flavor inputs) selectedOptions in
  let supplied := deref h (Params inputs) in
  let missing := fun name =>
    ∃ param, namespace !! name = Some param
             ∧ hubv1.Param_Required param = true
             ∧ (supplied !! name = None ∨ supplied !! name = Some EmptyString) in
  let unknown := fun name => is_Some (supplied !! name) ∧ namespace !! name = None in
  (∀ name, namespace !! name
           = lastDeclared name (declaredParameters spec (Flavor inputs) selectedOptions))
  ∧ ((∃ name, missing name) →
     ∃ name, missing name
             ∧ ValidateInputs env h inputs spec = Err (MissingInputForRequireParam name))
  ∧ ((∀ name, ¬ missing name) → (∃ name, unknown name) →
     ∃ name, unknown name
             ∧ ValidateInputs env h inputs spec = Err (UnrecognizedParamError name))
  ∧ ((∀ name, ¬ missing name) → (∀ name, ¬ unknown name) →
     ValidateInputs env h inputs spec = Ok tt).
Proof.
  intros Hrange Hcount Hflavor Hselect Hdeps namespace supplied missing unknown.
  assert (Hkey : ∀ name param, namespace !! name = Some param →
                               hubv1.Param_Name param = name).
  { intros name param. unfold namespace. rewrite collectParameters_lookup.
    apply lastDeclared_name. }
  assert (Hrun : ValidateInputs env h inputs spec
                 = (checkRequired (range_map env namespace) supplied;;
                    checkRecognized (range_map env supplied) namespace)).
  { unfold ValidateInputs. rewrite decide_False by done.
    rewrite Hflavor, Hselect. simpl. rewrite Hdeps. simpl.
    by rewrite <- Hflavor. }
  split; [intros name; apply collectParameters_lookup|].
  destruct (checkRequired_cases (range_map env namespace) supplied)
    as [[Hok Hall]|([key param] & Hin & Hreq & Hempty & Herr)].
  - (* no required parameter is missing *)
    assert (Hnone : ∀ name, ¬ missing name).
    { intros name (param & Hname & Hreq & Habsent).
      rewrite Forall_forall in Hall.
      apply (Hall (name, param)); [by apply elem_of_range_map|]. simpl.
      split; [done|]. rewrite (Hkey _ _ Hname). by apply index_map_empty. }
    split; [intros [name Hname]; by destruct (Hnone name)|].
    rewrite Hrun, Hok. simpl.
    destruct (checkRecognized_cases (range_map env supplied) namespace)
      as [[Hok' Hall']|([name text] & Hin & Hunknown & Herr)].
    + split.
      * intros _ [name [[text Htext] Hname]].
        rewrite Forall_forall in Hall'.
        destruct (Hall' (name, text)) as [param Hparam]; [by apply elem_of_range_map|].
        simpl in Hparam. congruence.
      * done.
    + apply elem_of_range_map in Hin; [|done]. simpl in *. split.
      * intros _ _. exists name. split; [|done]. split; [by exists text|done].
      * intros _ Hnounknown. destruct (Hnounknown name). split; [by exists text|done].
  - (* a required parameter is missing *)
    apply elem_of_range_map in Hin; [|done]. simpl in *.
    pose proof (Hkey _ _ Hin) as Hname. rewrite Hname in *.
    assert (Hmissing : missing key).
    { exists param. split; [done|]. split; [done|]. by apply index_map_empty. }
    split; [|split].
    + intros _. exists key. split; [done|]. by rewrite Hrun, Herr.
    + intros Hnone. by destruct (Hnone key).
    + intros Hnone. by destruct (Hnone key).
Qed.


(** ** Dispatch on the installation source *)

(** C8.  A spec whose installation source is unset or of an unlisted
    kind yields [MissingInstallSpecError], and so does an installation
    step whose source is unset or of an unlisted kind; no call to a
    collaborator is made.  A step's source is a chart reference, a
    packaged archive, a manifests archive, or one of those two cases:
    there is no step made of steps. *)
Theorem missing_source_is_MissingInstallSpecError (inputs : ValuesInputs) (w : world) :
  (∀ spec,
     hubv1.GetInstallationSpec spec = hubv1.Spec_Unset
     ∨ hubv1.GetInstallationSpec spec = hubv1.Spec_Unrecognized →
     GetManifestsFromApplicationSpec env inputs spec w = (Err MissingInstallSpecError, w))
  ∧ (∀ step,
       hubv1.Step step = hubv1.Step_Unset ∨ hubv1.Step step = hubv1.Step_Unrecognized →
       getManifestsFromInstallationStep env inputs step w = (Err MissingInstallSpecError, w))
  ∧ (∀ step,
       (∃ chart, hubv1.Step step = hubv1.Step_GithubChart chart)
       ∨ (∃ archive, hubv1.Step step = hubv1.Step_HelmArchive archive)
       ∨ (∃ archive, hubv1.Step step = hubv1.Step_ManifestsArchive archive)
       ∨ getManifestsFromInstallationStep env inputs step w = (Err MissingInstallSpecError, w)).
Proof.
  split; [|split].
  - intros spec [Hsource|Hsource]; unfold GetManifestsFromApplicationSpec;
      by rewrite Hsource.
  - intros step [Hsource|Hsource]; unfold getManifestsFromInstallationStep;
      by rewrite Hsource.
  - intros step. unfold getManifestsFromInstallationStep.
    destruct (hubv1.Step step); eauto 6.
Qed.

(** ** FilterByLabel *)

Lemma elem_of_FilterByLabel (spec : hubv1.VersionedApplicationSpec)
    (resources : list UnstructuredResource) (resource : UnstructuredResource) :
  resource ∈ FilterByLabel spec resources
  ↔ resource ∈ resources
    ∧ map_Forall (fun key val => default ∅ (GetLabels resource) !! key = Some val)
        (hubv1.GetRequiredLabels spec).
Proof.
  unfold FilterByLabel, WithLabels. case_decide as Hsize.
  - by rewrite list_elem_of_filter, (comm and).
  - assert (hubv1.GetRequiredLabels spec = ∅) as ->.
    { apply map_size_empty_iff. lia. }
    split; [|by intros [? _]]. intros Hin. split; [done|]. apply map_Forall_empty.
Qed.

(** ** The pipeline *)

(** C9, as the code has it.  [ComputeResourcesForApplication] runs five
    stages in a fixed order and stops at the first that fails:
    validation, template expansion (whose error is wrapped as
    [FailedRenderValueTemplatesError]), manifest acquisition, the layers
    stage turning manifests into resources, and the filter by label.
    On success it returns exactly the resources of the layers stage
    that carry every required label. *)
Theorem ComputeResourcesForApplication_stages (inputs : ValuesInputs)
    (spec : hubv1.VersionedApplicationSpec) (w : world) :
  ComputeResourcesForApplication env inputs spec w
  = match ValidateInputs env (w_heap w) inputs spec with
    | Err err => (Err err, w)
    | Panic => (Panic, w)
    | Ok _ =>
        match ExecInputValuesTemplates env inputs w with
        | (Err err, w1) => (Err (FailedRenderValueTemplatesError err), w1)
        | (Panic, w1) => (Panic, w1)
        | (Ok inputs', w1) =>
            match GetManifestsFromApplicationSpec env inputs' spec w1 with
            | (Err err, w2) => (Err err, w2)
            | (Panic, w2) => (Panic, w2)
            | (Ok manifests, w2) =>
                match ApplyLayers env (w_heap w2) inputs' manifests with
                | Err err => (Err err, w2)
                | Panic => (Panic, w2)
                | Ok rawResources => (Ok (FilterByLabel spec rawResources), w2)
                end
            end
        end
    end
  ∧ ∀ rawResources resource,
      resource ∈ FilterByLabel spec rawResources
      ↔ resource ∈ rawResources
        ∧ map_Forall (fun key val => default ∅ (GetLabels resource) !! key = Some val)
            (hubv1.GetRequiredLabels spec).
Proof.
  split; [|intros; apply elem_of_FilterByLabel].
  unfold ComputeResourcesForApplication, mbind, M_bind, reading, wrapping. simpl.
  destruct (ValidateInputs env (w_heap w) inputs spec) as [[]|err|]; [|done..].
  destruct (ExecInputValuesTemplates env inputs w) as [[inputs'|err|] w1]; simpl;
    [|done..].
  destruct (GetManifestsFromApplicationSpec env inputs' spec w1)
    as [[manifests|err|] w2]; simpl; [|done..].
  by destruct (ApplyLayers env (w_heap w2) inputs' manifests).
Qed.


(** ** ExecInputValuesTemplates *)

Lemma deref_store (h : heap) (l : positive) (name text : string) :
  deref (<[l := <[name := text]> (deref h (Some l))]> h) (Some l)
  = <[name := text]> (deref h (Some l)).
Proof. simpl. by rewrite lookup_insert_eq. Qed.

(** The loop over the parameters writes only to names the map already
    holds, and makes no call to a collaborator, however it ends. *)
Lemma renderParams_frame (entries : list (string * string)) (inputs : ValuesInputs)
    (w w' : world) (r : result unit) :
  renderParams env entries inputs w = (r, w') →
  Forall (fun entry => entry.1 ∈ dom (deref (w_heap w) (Params inputs))) entries →
  dom (deref (w_heap w') (Params inputs)) = dom (deref (w_heap w) (Params inputs))
  ∧ w_trace w' = w_trace w.
Proof.
  revert w. induction entries as [|[paramName paramValue] entries IH];
    intros w Hrun Hnames.
  - by injection Hrun as _ <-.
  - inversion Hnames as [|? ? Hname Hrest]; subst. simpl in Hname.
    simpl in Hrun. unfold mbind, M_bind, lift, execute, reading, store_param in Hrun.
    destruct (Must (template_Parse env paramName paramValue)) as [t|err|];
      [|by injection Hrun as _ <-..].
    destruct (template_Execute env t (w_heap w) inputs) as [text|err|];
      [|by injection Hrun as _ <-..].
    destruct (Params inputs) as [l|] eqn:Hparams; [|by injection Hrun as _ <-].
    apply IH in Hrun; cbn [w_heap w_trace] in *.
    + destruct Hrun as [-> ->]. split; [|done].
      rewrite deref_store, dom_insert_L.
      by apply subseteq_union_1_L, singleton_subseteq_l.
    + rewrite deref_store, dom_insert_L.
      eapply Forall_impl; [exact Hrest|]. simpl. intros entry.
      apply elem_of_union_r.
Qed.

(** C10.  When [ExecInputValuesTemplates] succeeds, the bundle it
    returns has the name, install namespace, flavor, layer selections,
    mesh reference and parameter map of the bundle it was given; the
    parameter map holds the same names as before; and no collaborator
    was called. *)
Theorem ExecInputValuesTemplates_frame (inputs inputs' : ValuesInputs) (w w' : world) :
  range_visits_all env →
  ExecInputValuesTemplates env inputs w = (Ok inputs', w') →
  Name inputs' = Name inputs
  ∧ InstallNamespace inputs' = InstallNamespace inputs
  ∧ Flavor inputs' = Flavor inputs
  ∧ Layers inputs' = Layers inputs
  ∧ MeshRef inputs' = MeshRef inputs
  ∧ Params inputs' = Params inputs
  ∧ dom (deref (w_heap w') (Params inputs')) = dom (deref (w_heap w) (Params inputs))
  ∧ w_trace w' = w_trace w.
Proof.
  intros Hrange Hrun.
  unfold ExecInputValuesTemplates, mbind, M_bind, lift, execute, reading in Hrun.
  destruct (Must (template_Parse env "specValues" (SpecDefinedValues inputs)))
    as [tpl|err|]; [|done..].
  destruct (template_Execute env tpl (w_heap w) inputs) as [specText|err|]; [|done..].
  destruct (Must (template_Parse env "userValues" _)) as [tpl'|err|]; [|done..].
  destruct (template_Execute env tpl' (w_heap w) _) as [userText|err|]; [|done..].
  simpl in Hrun.
  destruct (renderParams env _ _ w) as [[[]|err|] w''] eqn:Hloop; [|done..].
  injection Hrun as <- <-. simpl.
  apply renderParams_frame in Hloop; [by destruct Hloop|]. simpl.
  apply Forall_forall. intros [name text] Hin. simpl.
  apply elem_of_range_map in Hin; [|done]. by apply elem_of_dom.
Qed.

(** A template that does not parse makes the expansion panic: the
    parse error goes through [template.Must], it is not returned. *)
Lemma malformed_spec_values_panic (inputs : ValuesInputs) (w : world) (err : error) :
  template_Parse env "specValues" (SpecDefinedValues inputs) = Err err →
  ExecInputValuesTemplates env inputs w = (Panic, w).
Proof.
  intros Hparse. unfold ExecInputValuesTemplates, mbind, M_bind, lift.
  by rewrite Hparse.
Qed.

(** A template that parses but fails to execute is a returned error. *)
Lemma failing_spec_values_error (inputs : ValuesInputs) (w : world)
    (tpl : template env) (err : error) :
  template_Parse env "specValues" (SpecDefinedValues inputs) = Ok tpl →
  template_Execute env tpl (w_heap w) inputs = Err err →
  ExecInputValuesTemplates env inputs w = (Err err, w).
Proof.
  intros Hparse Hexec. unfold ExecInputValuesTemplates, mbind, M_bind, lift, execute, reading.
  rewrite Hparse. simpl. by rewrite Hexec.
Qed.


(** ** Installation steps *)

Lemma world_eta (w : world) : {| w_heap := w_heap w; w_trace := w_trace w ++ [] |} = w.
Proof. destruct w. simpl. by rewrite app_nil_r. Qed.

(** Acquiring a step's manifests reads the parameter maps and appends
    its calls to the trace; its outcome depends on the maps only. *)
Lemma getManifestsFromInstallationStep_run (inputs : ValuesInputs)
    (step : hubv1.InstallationSteps_Step) (w : world) :
  getManifestsFromInstallationStep env inputs step w
  = (stepResult env (w_heap w) inputs step,
     {| w_heap := w_heap w;
        w_trace := w_trace w ++ stepCalls env (w_heap w) inputs step |}).
Proof.
  unfold stepResult, stepCalls, getManifestsFromInstallationStep.
  destruct (hubv1.Step step) as [|[chart|]|[archive|]|archive|];
    unfold getManifestsFromGithub, getManifestsFromHelm, getManifestsFromArchive,
      mbind, M_bind, reading, lift, call; simpl;
    try destruct (ComputeValueOverrides env (w_heap w) inputs);
    simpl; by rewrite ?world_eta.
Qed.

Lemma find_name_elem (name : string) (names : list string) :
  name ∈ names →
  List.find (fun name' => bool_decide (name = name')) names = Some name.
Proof.
  induction names as [|name' names IH]; [by intros ?%elem_of_nil|].
  simpl. case_bool_decide as Heq; [by subst|].
  intros [?|?]%elem_of_cons; [done|by apply IH].
Qed.

Lemma find_name_fresh (name : string) (names : list string) :
  name ∉ names →
  List.find (fun name' => bool_decide (name = name')) names = None.
Proof.
  induction names as [|name' names IH]; [done|].
  intros [Hne Hnotin]%not_elem_of_cons. simpl.
  rewrite bool_decide_eq_false_2 by done. by apply IH.
Qed.

(** The loop over a list of steps is the loop over a prefix followed,
    if that succeeds, by the loop over the rest. *)
Lemma stepsLoop_app (before rest : list hubv1.InstallationSteps_Step)
    (inputs : ValuesInputs) (names : list string)
    (combined : list (Manifest env)) (w : world) :
  stepsLoop env (before ++ rest) inputs names combined w
  = match stepsLoop env before inputs names combined w with
    | (Ok combined', w') =>
        stepsLoop env rest inputs (names ++ map hubv1.Step_Name before) combined' w'
    | (Err err, w') => (Err err, w')
    | (Panic, w') => (Panic, w')
    end.
Proof.
  revert names combined w.
  induction before as [|step before IH]; intros names combined w; simpl.
  - by rewrite app_nil_r.
  - destruct (decide (hubv1.Step_Name step = EmptyString)); [done|].
    destruct (List.find _ names); [done|].
    unfold mbind, M_bind, lift.
    destruct (getManifestsFromInstallationStep env inputs step w)
      as [[manifests|err|] w1]; [|done..].
    destruct (ResourceList env manifests) as [resources|err|]; [|done..].
    destruct (ManifestsFromResources env _) as [manifests'|err|]; [|done..].
    rewrite IH. by rewrite <- app_assoc.
Qed.

(** A loop that succeeds has made exactly the calls of its steps, in
    order, and left the parameter maps alone. *)
Lemma stepsLoop_calls (steps : list hubv1.InstallationSteps_Step)
    (inputs : ValuesInputs) (names : list string)
    (combined combined' : list (Manifest env)) (w w' : world) :
  stepsLoop env steps inputs names combined w = (Ok combined', w') →
  w_heap w' = w_heap w
  ∧ w_trace w' = w_trace w ++ concat (map (stepCalls env (w_heap w) inputs) steps).
Proof.
  revert names combined w.
  induction steps as [|step steps IH]; intros names combined w Hrun; simpl in *.
  - injection Hrun as _ <-. by rewrite app_nil_r.
  - destruct (decide (hubv1.Step_Name step = EmptyString)); [done|].
    destruct (List.find _ names); [done|].
    unfold mbind, M_bind, lift in Hrun.
    rewrite getManifestsFromInstallationStep_run in Hrun.
    destruct (stepResult env (w_heap w) inputs step) as [manifests|err|]; [|done..].
    destruct (ResourceList env manifests) as [resources|err|]; [|done..].
    destruct (ManifestsFromResources env _) as [manifests'|err|]; [|done..].
    apply IH in Hrun as [-> ->]. simpl. by rewrite <- app_assoc.
Qed.

(** The loop stops at the first step that cannot be acquired or
    converted, with that step's own error. *)
Lemma getManifestsFromSteps_stops_at_failure (inputs : ValuesInputs) (w w' : world)
    (before after : list hubv1.InstallationSteps_Step)
    (step : hubv1.InstallationSteps_Step) (combined : list (Manifest env)) (err : error) :
  stepsLoop env before inputs [] [] w = (Ok combined, w') →
  hubv1.Step_Name step ≠ EmptyString →
  hubv1.Step_Name step ∉ map hubv1.Step_Name before →
  stepResult env (w_heap w) inputs step = Err err
  ∨ (∃ manifests,
       stepResult env (w_heap w) inputs step = Ok manifests
       ∧ (ResourceList env manifests = Err err
          ∨ ∃ resources,
              ResourceList env manifests = Ok resources
              ∧ ManifestsFromResources env
                  (map (labelResource (hubv1.Step_Name step)) resources) = Err err)) →
  getManifestsFromSteps env (Some {| hubv1.Steps := before ++ step :: after |}) inputs w
  = (Err err,
     {| w_heap := w_heap w;
        w_trace := w_trace w
                   ++ concat (map (stepCalls env (w_heap w) inputs) (before ++ [step])) |}).
Proof.
  intros Hbefore Hnamed Hfresh Hfails.
  destruct (stepsLoop_calls _ _ _ _ _ _ _ Hbefore) as [Hheap Htrace].
  unfold getManifestsFromSteps. simpl.
  rewrite decide_False by (rewrite length_app; simpl; lia).
  rewrite stepsLoop_app, Hbefore. simpl.
  rewrite decide_False by done. rewrite find_name_fresh by done.
  unfold mbind, M_bind, lift. rewrite getManifestsFromInstallationStep_run.
  rewrite Hheap, Htrace, map_app, concat_app. simpl. rewrite app_nil_r, <- app_assoc.
  destruct Hfails as [->|(manifests & -> & [->|(resources & -> & ->)])]; done.
Qed.

(** C5, as the code has it.  An empty step list fails at once.  The
    names are checked step by step, interleaved with acquisition: when
    the steps before some step have all been processed successfully and
    that step has an empty name, or a name one of them already bears
    (names compared as strings, so case matters), the result is the
    corresponding error; by then the earlier steps have been acquired,
    in order, while that step and the later ones have not.  And when a
    properly named step fails to be acquired or converted, that failure
    is what is returned, whatever the names of the steps after it: a
    missing or repeated name further down the list is never reached. *)
Theorem getManifestsFromSteps_name_checks (inputs : ValuesInputs) (w : world) :
  getManifestsFromSteps env (Some {| hubv1.Steps := [] |}) inputs w
  = (Err (Errorf "must provide at least one installation step"), w)
  ∧ (∀ before step after combined w',
       stepsLoop env before inputs [] [] w = (Ok combined, w') →
       hubv1.Step_Name step = EmptyString
       ∨ hubv1.Step_Name step ∈ map hubv1.Step_Name before →
       getManifestsFromSteps env (Some {| hubv1.Steps := before ++ step :: after |}) inputs w
       = (Err (if decide (hubv1.Step_Name step = EmptyString)
               then Errorf "step must be named"
               else Errorf ("step names must be unique; " +:+ hubv1.Step_Name step
                            +:+ " duplicated")),
          w')
       ∧ w_heap w' = w_heap w
       ∧ w_trace w'
         = w_trace w ++ concat (map (stepCalls env (w_heap w) inputs) before))
  ∧ (∀ before step after combined w' err,
       stepsLoop env before inputs [] [] w = (Ok combined, w') →
       hubv1.Step_Name step ≠ EmptyString →
       hubv1.Step_Name step ∉ map hubv1.Step_Name before →
       stepResult env (w_heap w) inputs step = Err err
       ∨ (∃ manifests,
            stepResult env (w_heap w) inputs step = Ok manifests
            ∧ (ResourceList env manifests = Err err
               ∨ ∃ resources,
                   ResourceList env manifests = Ok resources
                   ∧ ManifestsFromResources env
                       (map (labelResource (hubv1.Step_Name step)) resources) = Err err)) →
       getManifestsFromSteps env (Some {| hubv1.Steps := before ++ step :: after |}) inputs w
       = (Err err,
          {| w_heap := w_heap w;
             w_trace := w_trace w
                        ++ concat (map (stepCalls env (w_heap w) inputs)
                                     (before ++ [step])) |})).
Proof.
  split; [done|]. split.
  - intros before step after combined w' Hbefore Hname.
    split; [|by eapply stepsLoop_calls].
    unfold getManifestsFromSteps. simpl.
    rewrite decide_False by (rewrite length_app; simpl; lia).
    rewrite stepsLoop_app, Hbefore. simpl.
    destruct (decide (hubv1.Step_Name step = EmptyString)) as [|Hnamed]; [done|].
    destruct Hname as [|Hdup]; [done|].
    by rewrite (find_name_elem _ _ Hdup).
  - intros before step after combined w' err.
    apply getManifestsFromSteps_stops_at_failure.
Qed.



(** Labelling keeps every other label of the resource. *)
Lemma labelResource_other_labels (stepName key : string) (resource : UnstructuredResource) :
  key ≠ InstallationStepLabel →
  default ∅ (GetLabels (labelResource stepName resource)) !! key
  = default ∅ (GetLabels resource) !! key.
Proof.
  intros Hne. unfold labelResource, SetLabels. simpl.
  rewrite lookup_insert_ne by done. by destruct (GetLabels resource).
Qed.





(** ** ValidateInputs: further properties *)

Lemma selectOptions_app (layers : list LayerInput) (before after : list hubv1.Layer)
    (selectedOptions : list hubv1.LayerOption) :
  selectOptions layers (before ++ after) selectedOptions
  = (selected ← selectOptions layers before selectedOptions;
     selectOptions layers after selected).
Proof.
  revert selectedOptions.
  induction before as [|flavorLayer before IH]; intros selectedOptions; [done|].
  simpl. destruct (GetLayerOption _ flavorLayer) as [option|err|]; [apply IH| |done].
  destruct (negb (hubv1.Optional flavorLayer)); [done|apply IH].
Qed.

(** Once the layer count has passed (there are at least as many
    selections as required layers; otherwise the count error comes
    first), a required layer without a resolvable option stops
    validation, provided the required layers declared before it
    resolve: the lookup error comes back wrapped as
    [MissingInputForRequiredLayer], before any dependency or parameter
    is looked at. *)
Theorem ValidateInputs_required_layer_unresolved (h : heap) (inputs : ValuesInputs)
    (spec : hubv1.VersionedApplicationSpec) (flavor : hubv1.Flavor)
    (before after : list hubv1.Layer) (layer : hubv1.Layer) (err : error) :
  Flavor inputs = Some flavor →
  ¬ length (Layers inputs) < GetRequiredLayerCount (Flavor inputs) →
  hubv1.CustomizationLayers flavor = before ++ layer :: after →
  Forall (fun flavorLayer =>
            hubv1.Optional flavorLayer = false →
            ∃ option,
              GetLayerOption (lastMatchOptionId (Layers inputs) flavorLayer) flavorLayer
              = Ok option)
    before →
  hubv1.Optional layer = false →
  GetLayerOption (lastMatchOptionId (Layers inputs) layer) layer = Err err →
  ValidateInputs env h inputs spec = Err (MissingInputForRequiredLayer err).
Proof.
  intros Hflavor Hcount Hlayers Hbefore Hrequired Hlookup.
  unfold ValidateInputs. rewrite decide_False by done.
  rewrite Hflavor, Hlayers, selectOptions_app.
  rewrite (selectOptions_resolved _ _ [] Hbefore). simpl.
  by rewrite selectedOptionId_last, Hlookup, Hrequired.
Qed.

Lemma selectedOptionId_undeclared (before after : list LayerInput) (extra : LayerInput)
    (flavorLayer : hubv1.Layer) :
  LayerId extra ≠ hubv1.Layer_Id flavorLayer →
  selectedOptionId (before ++ extra :: after) flavorLayer
  = selectedOptionId (before ++ after) flavorLayer.
Proof.
  intros Hne. rewrite !selectedOptionId_last. unfold lastMatchOptionId.
  by rewrite !filter_app, filter_cons, decide_False.
Qed.

Lemma selectOptions_undeclared (before after : list LayerInput) (extra : LayerInput)
    (flavorLayers : list hubv1.Layer) (selectedOptions : list hubv1.LayerOption) :
  Forall (fun flavorLayer => LayerId extra ≠ hubv1.Layer_Id flavorLayer) flavorLayers →
  selectOptions (before ++ extra :: after) flavorLayers selectedOptions
  = selectOptions (before ++ after) flavorLayers selectedOptions.
Proof.
  intros Hall. revert selectedOptions.
  induction Hall as [|flavorLayer flavorLayers Hne _ IH]; intros selectedOptions; [done|].
  simpl. rewrite selectedOptionId_undeclared by done.
  destruct (GetLayerOption _ flavorLayer) as [option|err|]; [apply IH| |done].
  destruct (negb (hubv1.Optional flavorLayer)); [done|apply IH].
Qed.

(** A selection naming a layer the flavor does not declare is ignored:
    once the remaining selections are enough in number, validation
    gives the same outcome with it as without it. *)
Theorem ValidateInputs_ignores_undeclared_layer (h : heap) (inputs : ValuesInputs)
    (spec : hubv1.VersionedApplicationSpec)
    (before after : list LayerInput) (extra : LayerInput) :
  Forall (fun flavorLayer => LayerId extra ≠ hubv1.Layer_Id flavorLayer)
    (from_option hubv1.CustomizationLayers [] (Flavor inputs)) →
  ¬ length (before ++ after) < GetRequiredLayerCount (Flavor inputs) →
  ValidateInputs env h (with_Layers (before ++ extra :: after) inputs) spec
  = ValidateInputs env h (with_Layers (before ++ after) inputs) spec.
Proof.
  intros Hundeclared Hcount. unfold ValidateInputs. simpl.
  rewrite !decide_False; [|done|rewrite length_app in *; simpl; lia].
  destruct (Flavor inputs) as [flavor|]; [|done]. simpl in Hundeclared.
  by rewrite selectOptions_undeclared.
Qed.



Lemma selectOptions_Ok_inv (layers : list LayerInput) (flavorLayers : list hubv1.Layer)
    (selectedOptions selected : list hubv1.LayerOption) :
  selectOptions layers flavorLayers selectedOptions = Ok selected →
  Forall (fun flavorLayer =>
            hubv1.Optional flavorLayer = false →
            ∃ option, GetLayerOption (lastMatchOptionId layers flavorLayer) flavorLayer
                      = Ok option)
    flavorLayers.
Proof.
  revert selectedOptions.
  induction flavorLayers as [|flavorLayer flavorLayers IH]; intros selectedOptions Hrun;
    [constructor|].
  simpl in Hrun. rewrite selectedOptionId_last in Hrun.
  destruct (GetLayerOption _ flavorLayer) as [option|err|] eqn:Hoption; [| |done].
  - constructor; [by eauto|by eapply IH].
  - destruct (hubv1.Optional flavorLayer) eqn:Hoptional; simpl in Hrun; [|done].
    constructor; [by rewrite Hoptional|by eapply IH].
Qed.

Lemma validateOptions_Ok_inv (selectedOptions : list hubv1.LayerOption) :
  validateOptions env selectedOptions = Ok tt →
  Forall (fun o => validate env (hubv1.ResourceDependencies o) = None) selectedOptions.
Proof.
  induction selectedOptions as [|o selectedOptions IH]; intros Hrun; [constructor|].
  simpl in Hrun. destruct (validate env _) eqn:Hvalidate; [done|].
  constructor; [done|by apply IH].
Qed.

(** What a successful validation guarantees: a flavor is selected;
    there are at least as many selections as required layers; every
    required layer resolves with its last matching selection; the
    validator accepts the dependencies of every resolved option; every
    required parameter of the namespace has a non-empty supplied value;
    and every supplied parameter is declared. *)
Theorem ValidateInputs_Ok_guarantees (h : heap) (inputs : ValuesInputs)
    (spec : hubv1.VersionedApplicationSpec) :
  range_visits_all env →
  ValidateInputs env h inputs spec = Ok tt →
  ∃ flavor,
    Flavor inputs = Some flavor
    ∧ GetRequiredLayerCount (Flavor inputs) ≤ length (Layers inputs)
    ∧ Forall (fun flavorLayer =>
                hubv1.Optional flavorLayer = false →
                ∃ option,
                  GetLayerOption (lastMatchOptionId (Layers inputs) flavorLayer) flavorLayer
                  = Ok option)
        (hubv1.CustomizationLayers flavor)
    ∧ let selectedOptions :=
        resolvedOptions (Layers inputs) (hubv1.CustomizationLayers flavor) in
      let namespace := collectParameters spec (Flavor inputs) selectedOptions in
      let supplied := deref h (Params inputs) in
      Forall (fun o => validate env (hubv1.ResourceDependencies o) = None) selectedOptions
      ∧ (∀ name param,
           namespace !! name = Some param → hubv1.Param_Required param = true →
           ∃ text, supplied !! name = Some text ∧ text ≠ EmptyString)
      ∧ (∀ name, is_Some (supplied !! name) → is_Some (namespace !! name)).
Proof.
  intros Hrange Hrun. unfold ValidateInputs in Hrun.
  case_decide as Hcount; [done|].
  destruct (Flavor inputs) as [flavor|] eqn:Hflavor; [|done].
  exists flavor. split; [done|]. split; [lia|].
  destruct (selectOptions _ _ []) as [selected| |] eqn:Hselect; [|done..].
  pose proof (selectOptions_Ok_inv _ _ _ _ Hselect) as Hrequired.
  split; [done|].
  rewrite (selectOptions_resolved _ _ [] Hrequired) in Hselect.
  injection Hselect as <-. simpl in Hrun.
  destruct (validateOptions env _) as [[]| |] eqn:Hdeps; [|done..].
  simpl in Hrun. split; [by apply validateOptions_Ok_inv|].
  set (namespace := collectParameters _ _ _) in *.
  destruct (checkRequired_cases (range_map env namespace) (deref h (Params inputs)))
    as [[Hok Hall]|(entry & _ & _ & _ & Herr)]; [|by rewrite Herr in Hrun].
  rewrite Hok in Hrun. simpl in Hrun.
  destruct (checkRecognized_cases (range_map env (deref h (Params inputs))) namespace)
    as [[_ Hall']|(entry & _ & _ & Herr)]; [|by rewrite Herr in Hrun].
  rewrite Forall_forall in Hall. rewrite Forall_forall in Hall'. split.
  - intros name param Hname Hreq.
    assert (hubv1.Param_Name param = name) as Hkey.
    { unfold namespace in Hname. rewrite collectParameters_lookup in Hname.
      by eapply lastDeclared_name. }
    specialize (Hall (name, param)). simpl in Hall. rewrite Hkey in Hall.
    destruct (deref h (Params inputs) !! name) as [text|] eqn:Htext.
    + exists text. split; [done|]. intros ->. apply Hall.
      * by apply elem_of_range_map.
      * split; [done|]. apply index_map_empty. by right.
    + destruct Hall.
      * by apply elem_of_range_map.
      * split; [done|]. apply index_map_empty. by left.
  - intros name [text Htext]. apply (Hall' (name, text)). by apply elem_of_range_map.
Qed.


(** ** ComputeValueOverrides: further properties *)

Lemma coalesceLayers_Ok_inv (flavor : option hubv1.Flavor) (layers : list LayerInput)
    (valuesMap merged : gmap string value) :
  coalesceLayers env flavor layers valuesMap = Ok merged →
  ∃ fragments,
    Forall2 (layerFragment env flavor) layers fragments
    ∧ merged = fold_left CoalesceValuesMap fragments valuesMap.
Proof.
  revert valuesMap.
  induction layers as [|layerInput layers IH]; intros valuesMap Hrun; simpl in Hrun.
  - injection Hrun as <-. exists []. by split; [constructor|].
  - destruct (GetLayerOptionFromFlavor _ _ flavor) as [option| |] eqn:Hoption; [|done..].
    simpl in Hrun.
    destruct (decide (hubv1.HelmValues option ≠ EmptyString)) as [Hvalues|Hvalues].
    + destruct (ConvertYamlStringToNestedMap env _) as [layerValues| |] eqn:Hparse;
        [|done..].
      simpl in Hrun. apply IH in Hrun as (fragments & Hall & ->).
      exists (layerValues :: fragments). split; [|done].
      constructor; [|done]. exists option. split; [done|]. by rewrite decide_True.
    + apply IH in Hrun as (fragments & Hall & ->).
      exists (∅ :: fragments). split; [|by simpl; rewrite CoalesceValuesMap_empty_r].
      constructor; [|done]. exists option. split; [done|]. by rewrite decide_False.
Qed.

(** What a successful coalescing implies: the spec values, the
    parameters and the user values converted, every supplied layer
    input resolved to an option of the flavor (validation does not ask
    for that), and the text is the serialization of the sources
    coalesced in order. *)
Theorem ComputeValueOverrides_Ok_inv (h : heap) (inputs : ValuesInputs) (text : string) :
  ComputeValueOverrides env h inputs = Ok text →
  ∃ specValues fragments paramValues userValues,
    ConvertYamlStringToNestedMap env (SpecDefinedValues inputs) = Ok specValues
    ∧ Forall2 (layerFragment env (Flavor inputs)) (Layers inputs) fragments
    ∧ Forall (fun layerInput =>
                ∃ option,
                  GetLayerOptionFromFlavor (LayerId layerInput) (OptionId layerInput)
                    (Flavor inputs) = Ok option)
        (Layers inputs)
    ∧ ConvertParamsToNestedMap (range_map env (deref h (Params inputs))) = Ok paramValues
    ∧ ConvertYamlStringToNestedMap env (UserDefinedValues inputs) = Ok userValues
    ∧ ConvertNestedMapToYaml env
        (coalesceAll (specValues :: fragments ++ [paramValues; userValues]))
      = Ok text.
Proof.
  intros Hrun. unfold ComputeValueOverrides in Hrun.
  destruct (ConvertYamlStringToNestedMap env (SpecDefinedValues inputs))
    as [specValues| |]; [|done..].
  simpl in Hrun.
  destruct (coalesceLayers env _ _ _) as [merged| |] eqn:Hlayers; [|done..].
  apply coalesceLayers_Ok_inv in Hlayers as (fragments & Hall & ->). simpl in Hrun.
  destruct (ConvertParamsToNestedMap _) as [paramValues| |]; [|done..].
  simpl in Hrun.
  destruct (ConvertYamlStringToNestedMap env (UserDefinedValues inputs))
    as [userValues| |]; [|done..].
  simpl in Hrun.
  exists specValues, fragments, paramValues, userValues.
  repeat split; try done.
  - eapply Forall2_Forall_l; [exact Hall|]. apply Forall_forall.
    intros fragment _ layerInput (option & Hoption & _). by exists option.
  - unfold coalesceAll. simpl. by rewrite fold_left_app.
Qed.

(** A layer input that does not resolve makes coalescing fail with the
    lookup error itself, once the spec values have converted and the
    inputs before it have contributed their fragments; the parameters
    and the user values are not converted. *)
Theorem ComputeValueOverrides_layer_unresolved (h : heap) (inputs : ValuesInputs)
    (specValues : gmap string value) (before after : list LayerInput)
    (layerInput : LayerInput) (fragments : list (gmap string value)) (err : error) :
  ConvertYamlStringToNestedMap env (SpecDefinedValues inputs) = Ok specValues →
  Layers inputs = before ++ layerInput :: after →
  Forall2 (layerFragment env (Flavor inputs)) before fragments →
  GetLayerOptionFromFlavor (LayerId layerInput) (OptionId layerInput) (Flavor inputs)
  = Err err →
  ComputeValueOverrides env h inputs = Err err.
Proof.
  intros Hspec Hlayers Hbefore Herr. unfold ComputeValueOverrides.
  rewrite Hspec, Hlayers. simpl.
  assert (∀ valuesMap,
            coalesceLayers env (Flavor inputs) (before ++ layerInput :: after) valuesMap
            = Err err) as Hloop; [|by rewrite Hloop].
  clear Hlayers. induction Hbefore as [|input fragment before fragments Hfrag _ IH];
    intros valuesMap; simpl.
  - by rewrite Herr.
  - destruct Hfrag as (option & -> & Hvalues). simpl.
    destruct (decide (hubv1.HelmValues option ≠ EmptyString)); [|apply IH].
    rewrite Hvalues. simpl. apply IH.
Qed.


(** ** Acquisition: further properties *)

(** For the two chart sources the values are coalesced first: when that
    fails, its error is returned as it is and the rendering engine is
    not called. *)
Theorem chart_source_values_error (inputs : ValuesInputs)
    (spec : hubv1.VersionedApplicationSpec) (w : world) (err : error) :
  (∃ archive, hubv1.GetInstallationSpec spec = hubv1.Spec_HelmArchive (Some archive))
  ∨ (∃ chart, hubv1.GetInstallationSpec spec = hubv1.Spec_GithubChart (Some chart)) →
  ComputeValueOverrides env (w_heap w) inputs = Err err →
  GetManifestsFromApplicationSpec env inputs spec w = (Err err, w).
Proof.
  intros [[archive Hsource]|[chart Hsource]] Hvalues;
    unfold GetManifestsFromApplicationSpec, getManifestsFromHelm, getManifestsFromGithub,
      mbind, M_bind, reading;
    by rewrite Hsource, Hvalues.
Qed.

(** A failure of the rendering engine is wrapped as
    [FailedToRenderManifestsError]; the engine was called once, with the
    coalesced values, the bundle's name as release name, its install
    namespace, and an empty platform version. *)
Theorem helm_archive_render_error (inputs : ValuesInputs)
    (spec : hubv1.VersionedApplicationSpec) (w : world)
    (archive : hubv1.TgzLocation) (values : string) (err : error) :
  hubv1.GetInstallationSpec spec = hubv1.Spec_HelmArchive (Some archive) →
  ComputeValueOverrides env (w_heap w) inputs = Ok values →
  RenderManifests env (hubv1.Uri archive) values (Name inputs) (InstallNamespace inputs)
    EmptyString = Err err →
  GetManifestsFromApplicationSpec env inputs spec w
  = (Err (FailedToRenderManifestsError err),
     {| w_heap := w_heap w;
        w_trace := w_trace w ++ [RenderManifestsCall (hubv1.Uri archive) values
                                   (Name inputs) (InstallNamespace inputs) EmptyString] |}).
Proof.
  intros Hsource Hvalues Hrender.
  unfold GetManifestsFromApplicationSpec, getManifestsFromHelm, mbind, M_bind, reading, call.
  by rewrite Hsource, Hvalues, Hrender.
Qed.

Lemma stepsLoop_frame (steps : list hubv1.InstallationSteps_Step) (inputs : ValuesInputs)
    (names : list string) (combined : list (Manifest env)) (w : world) :
  w_heap (snd (stepsLoop env steps inputs names combined w)) = w_heap w
  ∧ w_trace w `prefix_of` w_trace (snd (stepsLoop env steps inputs names combined w)).
Proof.
  revert names combined w.
  induction steps as [|step steps IH]; intros names combined w; simpl; [done|].
  destruct (decide (hubv1.Step_Name step = EmptyString)); [done|].
  destruct (List.find _ names); [done|].
  unfold mbind, M_bind, lift. rewrite getManifestsFromInstallationStep_run.
  assert (w_trace w `prefix_of` w_trace w ++ stepCalls env (w_heap w) inputs step)
    as Hprefix by apply prefix_app_r, reflexivity.
  destruct (stepResult env (w_heap w) inputs step) as [manifests|err|]; [|done..].
  destruct (ResourceList env manifests) as [resources|err|]; [|done..].
  destruct (ManifestsFromResources env _) as [manifests'|err|]; [|done..].
  match goal with
  | |- context [stepsLoop env steps inputs ?names' ?combined' ?w'] =>
      destruct (IH names' combined' w') as [Hheap Htrace]
  end.
  split; [by rewrite Hheap|]. by etrans.
Qed.

Lemma acquisition_frame (inputs : ValuesInputs)
    (spec : hubv1.VersionedApplicationSpec) (w : world) :
  w_heap (snd (GetManifestsFromApplicationSpec env inputs spec w)) = w_heap w
  ∧ w_trace w `prefix_of` w_trace (snd (GetManifestsFromApplicationSpec env inputs spec w)).
Proof.
  assert (∀ calls, w_trace w `prefix_of` w_trace w ++ calls) as Hprefix
    by (intros; apply prefix_app_r; reflexivity).
  unfold GetManifestsFromApplicationSpec.
  destruct (hubv1.GetInstallationSpec spec) as [|[chart|]|[archive|]|archive|[steps|]|];
    unfold getManifestsFromGithub, getManifestsFromHelm, getManifestsFromArchive,
      getManifestsFromSteps, mbind, M_bind, reading, lift, call; simpl; try done;
    try (destruct (ComputeValueOverrides env (w_heap w) inputs); simpl; done).
  destruct (decide (length (hubv1.Steps steps) = 0)); [done|].
  apply stepsLoop_frame.
Qed.

(** Acquisition, whatever its source and outcome, leaves the parameter
    maps as they were and only adds calls to those already made. *)
Theorem GetManifestsFromApplicationSpec_frame (inputs : ValuesInputs)
    (spec : hubv1.VersionedApplicationSpec) (w : world) :
  w_heap (snd (GetManifestsFromApplicationSpec env inputs spec w)) = w_heap w
  ∧ w_trace w `prefix_of` w_trace (snd (GetManifestsFromApplicationSpec env inputs spec w)).
Proof. apply acquisition_frame. Qed.

Lemma find_name_None_inv (name : string) (names : list string) :
  List.find (fun name' => bool_decide (name = name')) names = None → name ∉ names.
Proof.
  induction names as [|name' names IH]; [by intros _ ?%elem_of_nil|].
  simpl. case_bool_decide as Heq; [done|].
  intros Hfind. apply not_elem_of_cons. split; [done|by apply IH].
Qed.

Lemma stepResult_Ok_one_call (h : heap) (inputs : ValuesInputs)
    (step : hubv1.InstallationSteps_Step) (manifests : list (Manifest env)) :
  stepResult env h inputs step = Ok manifests →
  length (stepCalls env h inputs step) = 1.
Proof.
  unfold stepResult, stepCalls, getManifestsFromInstallationStep.
  destruct (hubv1.Step step) as [|[chart|]|[archive|]|archive|];
    unfold getManifestsFromGithub, getManifestsFromHelm, getManifestsFromArchive,
      mbind, M_bind, reading, lift, call; simpl; try done;
    destruct (ComputeValueOverrides env h inputs); simpl; done.
Qed.

Lemma stepsLoop_Ok_inv (steps : list hubv1.InstallationSteps_Step) (inputs : ValuesInputs)
    (names : list string) (combined combined' : list (Manifest env)) (w w' : world) :
  stepsLoop env steps inputs names combined w = (Ok combined', w') →
  Forall (fun step => hubv1.Step_Name step ≠ EmptyString) steps
  ∧ Forall (fun step => ∃ manifests, stepResult env (w_heap w) inputs step = Ok manifests)
      steps
  ∧ (NoDup names → NoDup (names ++ map hubv1.Step_Name steps)).
Proof.
  revert names combined w.
  induction steps as [|step steps IH]; intros names combined w Hrun; simpl in *.
  - split; [constructor|]. split; [constructor|]. by rewrite app_nil_r.
  - destruct (decide (hubv1.Step_Name step = EmptyString)) as [|Hnamed]; [done|].
    destruct (List.find _ names) eqn:Hfind; [done|].
    apply find_name_None_inv in Hfind.
    unfold mbind, M_bind, lift in Hrun.
    rewrite getManifestsFromInstallationStep_run in Hrun.
    destruct (stepResult env (w_heap w) inputs step) as [manifests|err|] eqn:Hstep;
      [|done..].
    destruct (ResourceList env manifests) as [resources|err|]; [|done..].
    destruct (ManifestsFromResources env _) as [manifests'|err|]; [|done..].
    apply IH in Hrun as (Hnames & Hsteps & Hnodup). simpl in Hsteps.
    split; [by constructor|]. split; [constructor; [by eauto|done]|].
    intros Hnames'. rewrite cons_middle, (assoc_L (++)). apply Hnodup.
    apply NoDup_app. split; [done|]. split; [|apply NoDup_singleton].
    intros name Hin ->%list_elem_of_singleton. done.
Qed.

(** What a successful ordered-steps acquisition implies: there was at
    least one step, the step names are non-empty and pairwise distinct,
    the parameter maps are untouched, and exactly one rendering or
    archive-fetch call ([RenderManifests], [RenderManifestsFromGithub]
    or [GetManifestsFromRemoteTar]) was made per step, in step order. *)
Theorem getManifestsFromSteps_Ok_inv (steps : hubv1.InstallationSteps)
    (inputs : ValuesInputs) (combined : list (Manifest env)) (w w' : world) :
  getManifestsFromSteps env (Some steps) inputs w = (Ok combined, w') →
  hubv1.Steps steps ≠ []
  ∧ Forall (fun step => hubv1.Step_Name step ≠ EmptyString) (hubv1.Steps steps)
  ∧ NoDup (map hubv1.Step_Name (hubv1.Steps steps))
  ∧ w_heap w' = w_heap w
  ∧ w_trace w'
    = w_trace w ++ concat (map (stepCalls env (w_heap w) inputs) (hubv1.Steps steps))
  ∧ Forall (fun step => length (stepCalls env (w_heap w) inputs step) = 1)
      (hubv1.Steps steps).
Proof.
  unfold getManifestsFromSteps. intros Hrun.
  destruct (decide (length (hubv1.Steps steps) = 0)) as [|Hlength]; [done|].
  split; [by intros Hnil; rewrite Hnil in Hlength|].
  destruct (stepsLoop_Ok_inv _ _ _ _ _ _ _ Hrun) as (Hnamed & Hsteps & Hnodup).
  destruct (stepsLoop_calls _ _ _ _ _ _ _ Hrun) as [Hheap Htrace].
  repeat split; try done.
  - apply (Hnodup (NoDup_nil_2)).
  - eapply Forall_impl; [exact Hsteps|]. intros step [manifests Hstep].
    by eapply stepResult_Ok_one_call.
Qed.

(** A step that cannot be acquired or converted stops the loop: its
    error is returned as it is (a conversion error is not wrapped), the
    calls made are those of the earlier steps and of this step, and no
    later step is acquired. *)
Theorem getManifestsFromSteps_step_failure (inputs : ValuesInputs) (w w' : world)
    (before after : list hubv1.InstallationSteps_Step)
    (step : hubv1.InstallationSteps_Step) (combined : list (Manifest env)) (err : error) :
  stepsLoop env before inputs [] [] w = (Ok combined, w') →
  hubv1.Step_Name step ≠ EmptyString →
  hubv1.Step_Name step ∉ map hubv1.Step_Name before →
  stepResult env (w_heap w) inputs step = Err err
  ∨ (∃ manifests,
       stepResult env (w_heap w) inputs step = Ok manifests
       ∧ (ResourceList env manifests = Err err
          ∨ ∃ resources,
              ResourceList env manifests = Ok resources
              ∧ ManifestsFromResources env
                  (map (labelResource (hubv1.Step_Name step)) resources) = Err err)) →
  getManifestsFromSteps env (Some {| hubv1.Steps := before ++ step :: after |}) inputs w
  = (Err err,
     {| w_heap := w_heap w;
        w_trace := w_trace w
                   ++ concat (map (stepCalls env (w_heap w) inputs) (before ++ [step])) |}).
Proof. apply getManifestsFromSteps_stops_at_failure. Qed.

(** Labelling a resource twice keeps the later step name; labelling
    changes no other label and nothing else of the resource. *)
Theorem labelResource_overwrites (first second key : string)
    (resource : UnstructuredResource) :
  key ≠ InstallationStepLabel →
  labelResource second (labelResource first resource) = labelResource second resource
  ∧ default ∅ (GetLabels (labelResource second resource)) !! InstallationStepLabel
    = Some second
  ∧ default ∅ (GetLabels (labelResource second resource)) !! key
    = default ∅ (GetLabels resource) !! key
  ∧ Object (labelResource second resource) = Object resource.
Proof.
  intros Hkey. repeat split.
  - unfold labelResource, SetLabels. simpl. by rewrite insert_insert_eq.
  - unfold labelResource, SetLabels. simpl. apply lookup_insert_eq.
  - by apply labelResource_other_labels.
Qed.



(** A manifests archive is fetched without looking at the bundle: the
    values are not coalesced, so two bundles give the same outcome
    (even one whose values do not convert); the archive is fetched once
    and a fetch error is wrapped as [FailedToRenderManifestsError]. *)
Theorem manifests_archive_ignores_bundle (inputs inputs' : ValuesInputs)
    (spec : hubv1.VersionedApplicationSpec) (w : world)
    (archive : option hubv1.TgzLocation) :
  hubv1.GetInstallationSpec spec = hubv1.Spec_ManifestsArchive archive →
  GetManifestsFromApplicationSpec env inputs spec w
  = GetManifestsFromApplicationSpec env inputs' spec w
  ∧ GetManifestsFromApplicationSpec env inputs spec w
    = (wrap_error FailedToRenderManifestsError
         (GetManifestsFromRemoteTar env (GetUri archive)),
       {| w_heap := w_heap w;
          w_trace := w_trace w ++ [GetManifestsFromRemoteTarCall (GetUri archive)] |}).
Proof.
  intros Hsource. unfold GetManifestsFromApplicationSpec. by rewrite Hsource.
Qed.

(** ** Template expansion and the pipeline: further properties *)

Lemma renderParams_footprint (entries : list (string * string)) (inputs : ValuesInputs)
    (w : world) :
  w_trace (snd (renderParams env entries inputs w)) = w_trace w
  ∧ ∀ l, Params inputs ≠ Some l →
         w_heap (snd (renderParams env entries inputs w)) !! l = w_heap w !! l.
Proof.
  revert w. induction entries as [|[paramName paramValue] entries IH]; intros w; [done|].
  simpl. unfold mbind, M_bind, lift, execute, reading, store_param.
  destruct (Must (template_Parse env paramName paramValue)) as [t|err|]; [|done..].
  destruct (template_Execute env t (w_heap w) inputs) as [text|err|]; [|done..].
  destruct (Params inputs) as [l'|] eqn:Hparams; [|done].
  match goal with
  | |- context [renderParams env entries inputs ?w1] => destruct (IH w1) as [Htrace Hheap]
  end.
  split; [done|].
  intros l Hl. rewrite Hheap by done. simpl. apply lookup_insert_ne. congruence.
Qed.

Lemma expansion_footprint (inputs : ValuesInputs) (w : world) :
  w_trace (snd (ExecInputValuesTemplates env inputs w)) = w_trace w
  ∧ ∀ l, Params inputs ≠ Some l →
         w_heap (snd (ExecInputValuesTemplates env inputs w)) !! l = w_heap w !! l.
Proof.
  unfold ExecInputValuesTemplates, mbind, M_bind, lift, execute, reading.
  destruct (Must (template_Parse env "specValues" (SpecDefinedValues inputs)))
    as [tpl|err|]; [|done..].
  destruct (template_Execute env tpl (w_heap w) inputs) as [specText|err|]; [|done..].
  destruct (Must (template_Parse env "userValues" _)) as [tpl'|err|]; [|done..].
  destruct (template_Execute env tpl' (w_heap w) _) as [userText|err|]; [|done..].
  simpl.
  match goal with
  | |- context [renderParams env ?entries ?inputs2 w] =>
      destruct (renderParams_footprint entries inputs2 w) as [Htrace Hheap];
      destruct (renderParams env entries inputs2 w) as [[[]|err|] w'']
  end; done.
Qed.

(** Template expansion, however it ends, calls no collaborator and
    writes to no parameter map but the bundle's own; with a nil
    parameter map it writes nothing at all. *)
Theorem ExecInputValuesTemplates_footprint (inputs : ValuesInputs) (w : world) :
  w_trace (snd (ExecInputValuesTemplates env inputs w)) = w_trace w
  ∧ (∀ l, Params inputs ≠ Some l →
          w_heap (snd (ExecInputValuesTemplates env inputs w)) !! l = w_heap w !! l)
  ∧ (Params inputs = None →
     w_heap (snd (ExecInputValuesTemplates env inputs w)) = w_heap w).
Proof.
  destruct (expansion_footprint inputs w) as [Htrace Hheap].
  split; [done|]. split; [done|].
  intros Hnil. apply map_eq. intros l. apply Hheap. by rewrite Hnil.
Qed.

Lemma Must_Ok {A} (r : result A) (a : A) : Must r = Ok a → r = Ok a.
Proof. by destruct r. Qed.

(** What a successful expansion returns: the spec values are the output
    of the spec-values template run on the bundle as given, and the
    user values are the output of the user-values template run on the
    bundle that already holds the expanded spec values.  Each text is
    expanded once; the output is not parsed again. *)
Theorem ExecInputValuesTemplates_Ok_inv (inputs inputs' : ValuesInputs) (w w' : world) :
  ExecInputValuesTemplates env inputs w = (Ok inputs', w') →
  ∃ specTemplate userTemplate,
    template_Parse env "specValues" (SpecDefinedValues inputs) = Ok specTemplate
    ∧ template_Execute env specTemplate (w_heap w) inputs = Ok (SpecDefinedValues inputs')
    ∧ template_Parse env "userValues" (UserDefinedValues inputs) = Ok userTemplate
    ∧ template_Execute env userTemplate (w_heap w)
        (with_SpecDefinedValues (SpecDefinedValues inputs') inputs)
      = Ok (UserDefinedValues inputs').
Proof.
  intros Hrun.
  unfold ExecInputValuesTemplates, mbind, M_bind, lift, execute, reading in Hrun.
  destruct (Must (template_Parse env "specValues" (SpecDefinedValues inputs)))
    as [tpl|err|] eqn:Hspec; [|done..].
  destruct (template_Execute env tpl (w_heap w) inputs) as [specText|err|] eqn:HspecRun;
    [|done..].
  destruct (Must (template_Parse env "userValues" _)) as [tpl'|err|] eqn:Huser; [|done..].
  destruct (template_Execute env tpl' (w_heap w) _) as [userText|err|] eqn:HuserRun;
    [|done..].
  simpl in Hrun.
  destruct (renderParams env _ _ w) as [[[]|err|] w'']; [|done..].
  injection Hrun as <- <-. simpl.
  exists tpl, tpl'. repeat split; first [by apply Must_Ok|done].
Qed.

(** The pipeline's effects: a bundle that fails validation changes
    nothing; in every case the only parameter map written is the
    bundle's own, rendering and archive-fetch calls are only added to
    the trace, and such a call ([RenderManifests],
    [RenderManifestsFromGithub] or [GetManifestsFromRemoteTar]) is made
    only after validation and template expansion have both succeeded.
    The trace does not record the validator, which runs during
    validation. *)
Theorem ComputeResourcesForApplication_effects (inputs : ValuesInputs)
    (spec : hubv1.VersionedApplicationSpec) (w : world) :
  (ValidateInputs env (w_heap w) inputs spec ≠ Ok tt →
   snd (ComputeResourcesForApplication env inputs spec w) = w)
  ∧ (∀ l, Params inputs ≠ Some l →
          w_heap (snd (ComputeResourcesForApplication env inputs spec w)) !! l
          = w_heap w !! l)
  ∧ w_trace w `prefix_of` w_trace (snd (ComputeResourcesForApplication env inputs spec w))
  ∧ (w_trace (snd (ComputeResourcesForApplication env inputs spec w)) ≠ w_trace w →
     ValidateInputs env (w_heap w) inputs spec = Ok tt
     ∧ ∃ inputs', fst (ExecInputValuesTemplates env inputs w) = Ok inputs').
Proof.
  unfold ComputeResourcesForApplication, mbind, M_bind, reading, wrapping. simpl.
  destruct (ValidateInputs env (w_heap w) inputs spec) as [[]|err|];
    [|by (split; [|split; [|split]])..].
  destruct (expansion_footprint inputs w) as [Htrace Hheap].
  destruct (ExecInputValuesTemplates env inputs w) as [[inputs'|err|] w1]; simpl in *;
    [|split; [done|split; [done|split; [by rewrite Htrace|by rewrite Htrace]]]..].
  destruct (acquisition_frame inputs' spec w1) as [Hheap' Htrace'].
  destruct (GetManifestsFromApplicationSpec env inputs' spec w1)
    as [[manifests|err|] w2]; simpl in *;
    [destruct (ApplyLayers env (w_heap w2) inputs' manifests)|..]; simpl;
    (split; [done|split; [by intros l Hl; rewrite Hheap', Hheap|split;
       [by rewrite <- Htrace|by eauto]]]).
Qed.

(** ** FilterByLabel: further properties *)

(** Filtering only removes resources: what is left is in its original
    order, filtering again changes nothing, and without required labels
    every resource is kept. *)
Theorem FilterByLabel_sublist (spec : hubv1.VersionedApplicationSpec)
    (resources : list UnstructuredResource) :
  FilterByLabel spec resources `sublist_of` resources
  ∧ FilterByLabel spec (FilterByLabel spec resources) = FilterByLabel spec resources
  ∧ (hubv1.GetRequiredLabels spec = ∅ → FilterByLabel spec resources = resources).
Proof.
  unfold FilterByLabel, WithLabels. split; [|split].
  - case_decide; [apply sublist_filter|done].
  - case_decide; [|done]. rewrite list_filter_filter. apply list_filter_iff. tauto.
  - intros Hnone. rewrite Hnone, map_size_empty. by rewrite decide_False by lia.
Qed.

End Properties.


(** * The properties on concrete bundles *)

(** ** Coalescing: spec < layer option < parameters < user values *)




Example coalescing_user_value_wins :
  ComputeValueOverrides Fixture.plain (w_heap (Fixture.start {[ "x" := "3" ]}))
    (Fixture.bundle [Fixture.select "strict"] "x: 1" "x: 4")
  = Ok ("x: 4" +:+ Fixture.newline).
Proof. by vm_compute. Qed.

Example coalescing_parameter_wins_without_user_value :
  ComputeValueOverrides Fixture.plain (w_heap (Fixture.start {[ "x" := "3" ]}))
    (Fixture.bundle [Fixture.select "strict"] "x: 1" EmptyString)
  = Ok ("x: 3" +:+ Fixture.newline).
Proof. by vm_compute. Qed.

Example coalescing_layer_wins_without_parameters :
  ComputeValueOverrides Fixture.plain (w_heap (Fixture.start ∅))
    (Fixture.bundle [Fixture.select "strict"] "x: 1" EmptyString)
  = Ok ("x: 2" +:+ Fixture.newline).
Proof. by vm_compute. Qed.

(** A later source that sets a whole subtree to a scalar removes the
    paths an earlier source had set below it. *)
Example coalescing_scalar_replaces_table :
  get_path (coalesceAll [ {[ "a" := VMap {[ "b" := VScalar "1" ]} ]};
                          {[ "a" := VScalar "5" ]} ]) ["a"; "b"]
  = None.
Proof. by vm_compute. Qed.

(** ** Layer selections *)



(** ** Installation steps *)

(** C5 fails as stated: with two steps named [a], the first step's
    archive has been fetched by the time the duplicate is reported; and
    when the first step cannot be fetched, the error returned is that
    failure, not the duplicate name. *)
Lemma duplicate_step_counterexample :
  let inputs := Fixture.bundle [] EmptyString EmptyString in
  getManifestsFromSteps Fixture.plain
    (Some {| hubv1.Steps := [Fixture.archive_step "a" "repo/a.tgz";
                             Fixture.archive_step "a" "repo/b.tgz"] |})
    inputs (Fixture.start ∅)
  = (Err (Errorf "step names must be unique; a duplicated"),
     {| w_heap := w_heap (Fixture.start ∅);
        w_trace := [GetManifestsFromRemoteTarCall "repo/a.tgz"] |})
  ∧ [GetManifestsFromRemoteTarCall "repo/a.tgz"] ≠ []
  ∧ fst (getManifestsFromSteps Fixture.plain
           (Some {| hubv1.Steps := [Fixture.archive_step "a" EmptyString;
                                    Fixture.archive_step "a" "repo/b.tgz"] |})
           inputs (Fixture.start ∅))
    = Err (FailedToRenderManifestsError (ExternalError "archive: no uri"))
  ∧ FailedToRenderManifestsError (ExternalError "archive: no uri")
    ≠ Errorf "step names must be unique; a duplicated".
Proof. vm_compute. repeat split; congruence. Qed.

Lemma getManifestsFromSteps_name_checks_witness :
  let inputs := Fixture.bundle [] EmptyString EmptyString in
  let w := Fixture.start ∅ in
  let w' := {| w_heap := w_heap w;
               w_trace := [GetManifestsFromRemoteTarCall "repo/a.tgz"] |} in
  (getManifestsFromSteps Fixture.plain
     (Some {| hubv1.Steps := [Fixture.archive_step "a" "repo/a.tgz"]
                             ++ Fixture.archive_step "a" "repo/b.tgz"
                                :: [Fixture.archive_step "c" "repo/c.tgz"] |})
     inputs w
   = (Err (Errorf "step names must be unique; a duplicated"), w')
   ∧ w_heap w' = w_heap w
   ∧ w_trace w'
     = w_trace w ++ concat (map (stepCalls Fixture.plain (w_heap w) inputs)
                              [Fixture.archive_step "a" "repo/a.tgz"]))
  ∧ getManifestsFromSteps Fixture.plain
      (Some {| hubv1.Steps := [Fixture.archive_step "a" "repo/a.tgz"]
                              ++ Fixture.archive_step "b" EmptyString
                                 :: [Fixture.archive_step "a" "repo/c.tgz"] |})
      inputs w
    = (Err (FailedToRenderManifestsError (ExternalError "archive: no uri")),
       {| w_heap := w_heap w;
          w_trace := w_trace w
                     ++ concat (map (stepCalls Fixture.plain (w_heap w) inputs)
                                  ([Fixture.archive_step "a" "repo/a.tgz"]
                                   ++ [Fixture.archive_step "b" EmptyString])) |}).
Proof.
  intros inputs w w'.
  destruct (getManifestsFromSteps_name_checks Fixture.plain inputs w)
    as (_ & Hnames & Hfailure).
  split.
  - apply (Hnames [Fixture.archive_step "a" "repo/a.tgz"]
             (Fixture.archive_step "a" "repo/b.tgz")
             [Fixture.archive_step "c" "repo/c.tgz"]
             (map (labelResource "a") (Fixture.rendered "repo/a.tgz" EmptyString)) w').
    + by vm_compute.
    + right. by vm_compute; left.
  - apply (Hfailure [Fixture.archive_step "a" "repo/a.tgz"]
             (Fixture.archive_step "b" EmptyString)
             [Fixture.archive_step "a" "repo/c.tgz"]
             (map (labelResource "a") (Fixture.rendered "repo/a.tgz" EmptyString)) w').
    + by vm_compute.
    + done.
    + simpl. by intros [=]%list_elem_of_singleton.
    + left. by vm_compute.
Defined.

(** Names differing only in case are different names. *)
Example step_names_are_case_sensitive :
  fst (getManifestsFromSteps Fixture.plain
         (Some {| hubv1.Steps := [Fixture.archive_step "a" "repo/a.tgz";
                                  Fixture.archive_step "A" "repo/b.tgz"] |})
         (Fixture.bundle [] EmptyString EmptyString) (Fixture.start ∅))
  = Ok (map (labelResource "a") (Fixture.rendered "repo/a.tgz" EmptyString)
        ++ map (labelResource "A") (Fixture.rendered "repo/b.tgz" EmptyString)).
Proof. by vm_compute. Qed.



(** ** Parameters *)

Lemma ValidateInputs_parameters_witness :
  ∃ name,
    ValidateInputs Fixture.plain (w_heap (Fixture.start ∅))
      (Fixture.bundle [Fixture.select "strict"] EmptyString EmptyString)
      (Fixture.archive_spec hubv1.Spec_Unset)
    = Err (MissingInputForRequireParam name).
Proof.
  destruct (ValidateInputs_parameters Fixture.plain (w_heap (Fixture.start ∅))
              (Fixture.bundle [Fixture.select "strict"] EmptyString EmptyString)
              (Fixture.archive_spec hubv1.Spec_Unset)
              Fixture.flavor [Fixture.option_strict])
    as (_ & Hmissing & _).
  - by intros V m.
  - simpl. lia.
  - done.
  - by vm_compute.
  - by vm_compute.
  - destruct Hmissing as (name & _ & Hrun).
    + exists "mtls". eexists. split; [vm_compute; reflexivity|].
      split; [done|]. left. by vm_compute.
    + by exists name.
Defined.

(** Both checks would fail here: the required check is the one reported. *)
Example required_check_comes_first :
  ValidateInputs Fixture.plain (w_heap (Fixture.start {[ "bogus" := "1" ]}))
    (Fixture.bundle [Fixture.select "strict"] EmptyString EmptyString)
    (Fixture.archive_spec hubv1.Spec_Unset)
  = Err (MissingInputForRequireParam "mtls")
  ∧ ValidateInputs Fixture.plain
      (w_heap (Fixture.start {[ "bogus" := "1"; "mtls" := "on" ]}))
      (Fixture.bundle [Fixture.select "strict"] EmptyString EmptyString)
      (Fixture.archive_spec hubv1.Spec_Unset)
    = Err (UnrecognizedParamError "bogus").
Proof. by vm_compute. Qed.

(** ** Dispatch *)

Lemma missing_source_is_MissingInstallSpecError_witness :
  GetManifestsFromApplicationSpec Fixture.plain
    (Fixture.bundle [] EmptyString EmptyString)
    (Fixture.archive_spec hubv1.Spec_Unset) (Fixture.start ∅)
  = (Err MissingInstallSpecError, Fixture.start ∅).
Proof.
  apply (proj1 (missing_source_is_MissingInstallSpecError Fixture.plain
                  (Fixture.bundle [] EmptyString EmptyString) (Fixture.start ∅))).
  by left.
Defined.

(** ** The pipeline *)

(** C9 fails as stated: between acquisition and filtering the code runs
    the layers stage.  With a layers stage that rejects the manifests,
    validation, expansion and acquisition all succeed and the four
    stages of the claim would return the filtered resources, yet the
    code returns the error of the layers stage. *)
Lemma four_stage_pipeline_counterexample :
  let inputs := Fixture.bundle [Fixture.select "permissive"] EmptyString EmptyString in
  let spec :=
    Fixture.archive_spec (hubv1.Spec_ManifestsArchive (Some {| hubv1.Uri := "a.tgz" |})) in
  fst (fourStagePipeline Fixture.rejecting inputs spec (Fixture.start ∅))
  = Ok (Fixture.rendered "a.tgz" EmptyString)
  ∧ fst (ComputeResourcesForApplication Fixture.rejecting inputs spec (Fixture.start ∅))
    = Err (ExternalError "layers: rejected")
  ∧ ComputeResourcesForApplication Fixture.rejecting inputs spec (Fixture.start ∅)
    ≠ fourStagePipeline Fixture.rejecting inputs spec (Fixture.start ∅).
Proof. vm_compute. repeat split; congruence. Qed.

(** ** Template expansion *)

Lemma ExecInputValuesTemplates_frame_witness :
  let inputs :=
    Fixture.bundle [Fixture.select "permissive"]
      "namespace: {{.InstallNamespace}}" "release: {{.Name}}" in
  let inputs' :=
    Fixture.bundle [Fixture.select "permissive"] "namespace: app" "release: demo" in
  let w := Fixture.start {[ "a" := "{{.Name}}" ]} in
  let w' := Fixture.start {[ "a" := "demo" ]} in
  ExecInputValuesTemplates Fixture.plain inputs w = (Ok inputs', w')
  ∧ Name inputs' = Name inputs
  ∧ InstallNamespace inputs' = InstallNamespace inputs
  ∧ Flavor inputs' = Flavor inputs
  ∧ Layers inputs' = Layers inputs
  ∧ MeshRef inputs' = MeshRef inputs
  ∧ Params inputs' = Params inputs
  ∧ dom (deref (w_heap w') (Params inputs')) = dom (deref (w_heap w) (Params inputs))
  ∧ w_trace w' = w_trace w.
Proof.
  intros inputs inputs' w w'.
  assert (Hrun : ExecInputValuesTemplates Fixture.plain inputs w = (Ok inputs', w'))
    by (by vm_compute).
  split; [exact Hrun|].
  apply (ExecInputValuesTemplates_frame Fixture.plain inputs inputs' w w');
    [by intros V m|exact Hrun].
Defined.

(** C2: the code at a malformed template.  An unclosed action in the
    spec values, in the user values or in a parameter value makes the
    pipeline panic; it returns no error.  A well-formed template that
    fails when executed is, by contrast, returned as a wrapped
    [FailedRenderValueTemplatesError]. *)
Theorem malformed_template_panics :
  let spec :=
    Fixture.archive_spec (hubv1.Spec_ManifestsArchive (Some {| hubv1.Uri := "a.tgz" |})) in
  let run := fun specValues userValues params =>
    fst (ComputeResourcesForApplication Fixture.plain
           (Fixture.bundle [Fixture.select "permissive"] specValues userValues)
           spec (Fixture.start params)) in
  run "replicas: {{" EmptyString ∅ = Panic
  ∧ run EmptyString "replicas: {{" ∅ = Panic
  ∧ run EmptyString EmptyString {[ "x" := "{{" ]} = Panic
  ∧ run "replicas: {{.Nope}}" EmptyString ∅
    = Err (FailedRenderValueTemplatesError
             (ExternalError
                "template: can't evaluate field Nope in type render.ValuesInputs")).
Proof. by vm_compute. Qed.

(** C3: the code at a failing expansion.  The parameter [mtls] expands
    and is written to the caller's map before the parameter [x] fails:
    the call returns an error and the caller's map holds one expanded
    and one unexpanded value. *)
Theorem failed_expansion_is_partially_applied :
  let spec :=
    Fixture.archive_spec (hubv1.Spec_ManifestsArchive (Some {| hubv1.Uri := "a.tgz" |})) in
  let inputs := Fixture.bundle [Fixture.select "strict"] EmptyString EmptyString in
  let before : gmap string string := {[ "mtls" := "{{.Name}}"; "x" := "{{.Nope}}" ]} in
  let after : gmap string string := {[ "mtls" := "demo"; "x" := "{{.Nope}}" ]} in
  ComputeResourcesForApplication Fixture.plain inputs spec (Fixture.start before)
  = (Err (FailedRenderValueTemplatesError
            (ExternalError
               "template: can't evaluate field Nope in type render.ValuesInputs")),
     Fixture.start after)
  ∧ deref (w_heap (Fixture.start after)) (Params inputs)
    ≠ deref (w_heap (Fixture.start before)) (Params inputs).
Proof.
  split; [by vm_compute|].
  intros Heq. by apply (f_equal (fun m : gmap string string => m !! "mtls")) in Heq.
Qed.

(** ** Further properties on concrete bundles *)

Lemma ValidateInputs_required_layer_unresolved_witness :
  ValidateInputs Fixture.plain (w_heap (Fixture.start ∅))
    (Fixture.bundle [Fixture.select "bogus"] EmptyString EmptyString)
    (Fixture.archive_spec hubv1.Spec_Unset)
  = Err (MissingInputForRequiredLayer (Errorf "no option bogus in layer security")).
Proof.
  apply (ValidateInputs_required_layer_unresolved Fixture.plain (w_heap (Fixture.start ∅))
           (Fixture.bundle [Fixture.select "bogus"] EmptyString EmptyString)
           (Fixture.archive_spec hubv1.Spec_Unset)
           Fixture.flavor [] [] Fixture.layer_security).
  - done.
  - simpl. lia.
  - done.
  - constructor.
  - done.
  - by vm_compute.
Defined.

Lemma ValidateInputs_ignores_undeclared_layer_witness :
  let inputs := Fixture.bundle [] EmptyString EmptyString in
  let extra := {| LayerId := "observability"; OptionId := "on" |} in
  ValidateInputs Fixture.plain (w_heap (Fixture.start ∅))
    (with_Layers ([Fixture.select "permissive"] ++ extra :: []) inputs)
    (Fixture.archive_spec hubv1.Spec_Unset)
  = ValidateInputs Fixture.plain (w_heap (Fixture.start ∅))
      (with_Layers ([Fixture.select "permissive"] ++ []) inputs)
      (Fixture.archive_spec hubv1.Spec_Unset).
Proof.
  intros inputs extra.
  apply (ValidateInputs_ignores_undeclared_layer Fixture.plain (w_heap (Fixture.start ∅))
           inputs (Fixture.archive_spec hubv1.Spec_Unset)
           [Fixture.select "permissive"] [] extra).
  - simpl. constructor; [by vm_compute|constructor].
  - simpl. lia.
Defined.


Lemma ValidateInputs_Ok_guarantees_witness :
  let inputs := Fixture.bundle [Fixture.select "strict"] EmptyString EmptyString in
  let h := w_heap (Fixture.start {[ "mtls" := "on" ]}) in
  ∃ flavor,
    Flavor inputs = Some flavor
    ∧ GetRequiredLayerCount (Flavor inputs) ≤ length (Layers inputs)
    ∧ Forall (fun flavorLayer =>
                hubv1.Optional flavorLayer = false →
                ∃ option,
                  GetLayerOption (lastMatchOptionId (Layers inputs) flavorLayer) flavorLayer
                  = Ok option)
        (hubv1.CustomizationLayers flavor).
Proof.
  intros inputs h.
  destruct (ValidateInputs_Ok_guarantees Fixture.plain h inputs
              (Fixture.archive_spec hubv1.Spec_Unset))
    as (flavor & Hflavor & Hcount & Hlayers & _).
  - by intros V m.
  - by vm_compute.
  - by exists flavor.
Defined.

Lemma ComputeValueOverrides_Ok_inv_witness :
  let inputs := Fixture.bundle [Fixture.select "strict"] "x: 1" "x: 4" in
  Forall (fun layerInput =>
            ∃ option,
              GetLayerOptionFromFlavor (LayerId layerInput) (OptionId layerInput)
                (Flavor inputs) = Ok option)
    (Layers inputs).
Proof.
  intros inputs.
  destruct (ComputeValueOverrides_Ok_inv Fixture.plain
              (w_heap (Fixture.start {[ "x" := "3" ]})) inputs
              ("x: 4" +:+ Fixture.newline))
    as (specValues & fragments & paramValues & userValues & _ & _ & Hresolved & _).
  - by vm_compute.
  - exact Hresolved.
Defined.

Lemma ComputeValueOverrides_layer_unresolved_witness :
  let undeclared := {| LayerId := "observability"; OptionId := "on" |} in
  let inputs := Fixture.bundle [Fixture.select "permissive"; undeclared] "x: 1" EmptyString in
  ComputeValueOverrides Fixture.plain (w_heap (Fixture.start ∅)) inputs
  = Err (Errorf "no layer observability in flavor")
  ∧ ValidateInputs Fixture.plain (w_heap (Fixture.start ∅)) inputs
      (Fixture.archive_spec hubv1.Spec_Unset)
    = Ok tt.
Proof.
  intros undeclared inputs. split; [|by vm_compute].
  apply (ComputeValueOverrides_layer_unresolved Fixture.plain (w_heap (Fixture.start ∅))
           inputs {[ "x" := VScalar "1" ]} [Fixture.select "permissive"] [] undeclared [∅]).
  - by vm_compute.
  - done.
  - constructor; [|constructor]. exists Fixture.option_permissive. split; by vm_compute.
  - by vm_compute.
Defined.

Lemma chart_source_values_error_witness :
  GetManifestsFromApplicationSpec Fixture.plain
    (Fixture.bundle [] "nonsense" EmptyString) (Fixture.helm_spec "charts/demo.tgz")
    (Fixture.start ∅)
  = (Err (ExternalError "yaml: cannot parse nonsense"), Fixture.start ∅).
Proof.
  apply (chart_source_values_error Fixture.plain
           (Fixture.bundle [] "nonsense" EmptyString) (Fixture.helm_spec "charts/demo.tgz")
           (Fixture.start ∅)).
  - left. by eexists.
  - by vm_compute.
Defined.

Lemma helm_archive_render_error_witness :
  let inputs := Fixture.bundle [] "x: 1" EmptyString in
  GetManifestsFromApplicationSpec (Fixture.with_RenderManifests Fixture.no_chart)
    inputs (Fixture.helm_spec "charts/demo.tgz") (Fixture.start ∅)
  = (Err (FailedToRenderManifestsError (ExternalError "render: no chart at charts/demo.tgz")),
     {| w_heap := w_heap (Fixture.start ∅);
        w_trace := w_trace (Fixture.start ∅)
                   ++ [RenderManifestsCall "charts/demo.tgz" ("x: 1" +:+ Fixture.newline)
                         "demo" "app" EmptyString] |}).
Proof.
  intros inputs.
  apply (helm_archive_render_error (Fixture.with_RenderManifests Fixture.no_chart)
           inputs (Fixture.helm_spec "charts/demo.tgz") (Fixture.start ∅)
           {| hubv1.Uri := "charts/demo.tgz" |} ("x: 1" +:+ Fixture.newline)).
  - done.
  - by vm_compute.
  - done.
Defined.

Lemma getManifestsFromSteps_Ok_inv_witness :
  let steps := {| hubv1.Steps := [Fixture.archive_step "crds" "repo/crds.tgz";
                                  Fixture.archive_step "app" "repo/app.tgz"] |} in
  NoDup (map hubv1.Step_Name (hubv1.Steps steps))
  ∧ Forall (fun step =>
              length (stepCalls Fixture.plain (w_heap (Fixture.start ∅))
                        (Fixture.bundle [] EmptyString EmptyString) step) = 1)
      (hubv1.Steps steps).
Proof.
  intros steps.
  destruct (getManifestsFromSteps_Ok_inv Fixture.plain steps
              (Fixture.bundle [] EmptyString EmptyString)
              (map (labelResource "crds") (Fixture.rendered "repo/crds.tgz" EmptyString)
               ++ map (labelResource "app") (Fixture.rendered "repo/app.tgz" EmptyString))
              (Fixture.start ∅)
              {| w_heap := w_heap (Fixture.start ∅);
                 w_trace := [GetManifestsFromRemoteTarCall "repo/crds.tgz";
                             GetManifestsFromRemoteTarCall "repo/app.tgz"] |})
    as (_ & _ & Hnodup & _ & _ & Hcalls).
  - by vm_compute.
  - by split.
Defined.

Lemma getManifestsFromSteps_step_failure_witness :
  let inputs := Fixture.bundle [] EmptyString EmptyString in
  let w := Fixture.start ∅ in
  getManifestsFromSteps Fixture.plain
    (Some {| hubv1.Steps := [Fixture.archive_step "crds" "repo/crds.tgz"]
                            ++ Fixture.archive_step "app" EmptyString
                               :: [Fixture.archive_step "extras" "repo/extras.tgz"] |})
    inputs w
  = (Err (FailedToRenderManifestsError (ExternalError "archive: no uri")),
     {| w_heap := w_heap w;
        w_trace := w_trace w
                   ++ concat (map (stepCalls Fixture.plain (w_heap w) inputs)
                                ([Fixture.archive_step "crds" "repo/crds.tgz"]
                                 ++ [Fixture.archive_step "app" EmptyString])) |}).
Proof.
  intros inputs w.
  apply (getManifestsFromSteps_step_failure Fixture.plain inputs w
           {| w_heap := w_heap w;
              w_trace := [GetManifestsFromRemoteTarCall "repo/crds.tgz"] |}
           [Fixture.archive_step "crds" "repo/crds.tgz"]
           [Fixture.archive_step "extras" "repo/extras.tgz"]
           (Fixture.archive_step "app" EmptyString)
           (map (labelResource "crds") (Fixture.rendered "repo/crds.tgz" EmptyString))).
  - by vm_compute.
  - done.
  - simpl. by intros [=]%list_elem_of_singleton.
  - left. by vm_compute.
Defined.

Lemma labelResource_overwrites_witness :
  let resource := {| GetLabels := Some {[ "tier" := "frontend" ]}; Object := "service" |} in
  labelResource "app" (labelResource "crds" resource) = labelResource "app" resource
  ∧ default ∅ (GetLabels (labelResource "app" resource)) !! "tier" = Some "frontend".
Proof.
  intros resource.
  destruct (labelResource_overwrites "crds" "app" "tier" resource)
    as (Htwice & _ & Hother & _).
  - done.
  - split; [exact Htwice|]. rewrite Hother. by vm_compute.
Defined.

Lemma ExecInputValuesTemplates_footprint_witness :
  let inputs :=
    Fixture.with_Params None (Fixture.bundle [] "namespace: {{.InstallNamespace}}" EmptyString) in
  w_heap (snd (ExecInputValuesTemplates Fixture.plain inputs
                 (Fixture.start {[ "a" := "{{.Name}}" ]})))
  = w_heap (Fixture.start {[ "a" := "{{.Name}}" ]}).
Proof.
  intros inputs.
  by apply (ExecInputValuesTemplates_footprint Fixture.plain inputs
              (Fixture.start {[ "a" := "{{.Name}}" ]})).
Defined.

Lemma ExecInputValuesTemplates_Ok_inv_witness :
  let inputs := Fixture.bundle [] "namespace: {{.InstallNamespace}}"
                  "from spec: {{.SpecDefinedValues}}" in
  let inputs' := Fixture.bundle [] "namespace: app" "from spec: namespace: app" in
  ∃ specTemplate userTemplate,
    template_Parse Fixture.plain "specValues" (SpecDefinedValues inputs) = Ok specTemplate
    ∧ template_Execute Fixture.plain specTemplate (w_heap (Fixture.start ∅)) inputs
      = Ok (SpecDefinedValues inputs')
    ∧ template_Parse Fixture.plain "userValues" (UserDefinedValues inputs) = Ok userTemplate
    ∧ template_Execute Fixture.plain userTemplate (w_heap (Fixture.start ∅))
        (with_SpecDefinedValues (SpecDefinedValues inputs') inputs)
      = Ok (UserDefinedValues inputs').
Proof.
  intros inputs inputs'.
  apply (ExecInputValuesTemplates_Ok_inv Fixture.plain inputs inputs'
           (Fixture.start ∅) (Fixture.start ∅)).
  by vm_compute.
Defined.

Lemma ComputeResourcesForApplication_effects_witness :
  let inputs := Fixture.bundle [Fixture.select "strict"] "namespace: {{.InstallNamespace}}"
                  EmptyString in
  let w := Fixture.start {[ "x" := "{{.Name}}" ]} in
  snd (ComputeResourcesForApplication Fixture.plain inputs
         (Fixture.helm_spec "charts/demo.tgz") w)
  = w.
Proof.
  intros inputs w.
  apply (ComputeResourcesForApplication_effects Fixture.plain inputs
           (Fixture.helm_spec "charts/demo.tgz") w).
  by vm_compute.
Defined.

Lemma FilterByLabel_sublist_witness :
  FilterByLabel (Fixture.archive_spec hubv1.Spec_Unset)
    (Fixture.rendered "a.tgz" EmptyString)
  = Fixture.rendered "a.tgz" EmptyString.
Proof.
  by apply (FilterByLabel_sublist (Fixture.archive_spec hubv1.Spec_Unset)
              (Fixture.rendered "a.tgz" EmptyString)).
Defined.

(** Filtering the two rendered resources by [tier: frontend] keeps the
    one that carries the label, with its labels as they were. *)
Example filter_keeps_labelled_resources :
  FilterByLabel
    {| hubv1.GetInstallationSpec := hubv1.Spec_Unset;
       hubv1.GetParameters := [];
       hubv1.GetRequiredLabels := {[ "tier" := "frontend" ]} |}
    (Fixture.rendered "a.tgz" EmptyString)
  = [ {| GetLabels := Some {[ "tier" := "frontend" ]}; Object := "a.tgz/service" |} ].
Proof. by vm_compute. Qed.

Lemma manifests_archive_ignores_bundle_witness :
  let spec :=
    Fixture.archive_spec (hubv1.Spec_ManifestsArchive (Some {| hubv1.Uri := "a.tgz" |})) in
  GetManifestsFromApplicationSpec Fixture.plain
    (Fixture.bundle [] "nonsense" EmptyString) spec (Fixture.start ∅)
  = GetManifestsFromApplicationSpec Fixture.plain
      (Fixture.bundle [] "x: 1" EmptyString) spec (Fixture.start ∅).
Proof.
  intros spec.
  by apply (manifests_archive_ignores_bundle Fixture.plain
              (Fixture.bundle [] "nonsense" EmptyString)
              (Fixture.bundle [] "x: 1" EmptyString) spec (Fixture.start ∅)
              (Some {| hubv1.Uri := "a.tgz" |})).
Defined.
